(** * Vokabeltrainer: a shallow embedding of [vocab_sender.py]

    The script is one linear run: a schedule guard, a duplicate guard keyed
    by (date, hour), the selection of [N_WORDS] vocabulary rows that were not
    used yet, a text template, two HTTP deliveries and the write-back of the
    JSON state file.

    Modelling choices.
    - Python [str] is [string]; the primitives [str.strip], [str.split] and
      [int] are modelled on ASCII text (the interpreter's treatment of
      non-ASCII spaces and digits and its optional limit on the number of
      digits are outside the model).
    - Python [int] is [Z]; a [set] of ints is a [gset Z]; the [sent_hours]
      dict is a [gmap string (list Z)].
    - The JSON state is a record whose fields are optional: [None] is an
      absent key, which is what [state.get(key, default)] tests.
    - What the run reads from its surroundings is collected in [Env]: the
      configuration, one reading of the clocks, the rows produced by
      [csv.DictReader], the replies of the two HTTP backends and the draws
      of the random generator.
    - What the run changes is the [World]: the state file and a
      chronological log of console lines, HTTP requests and file writes.
    - Exceptions are explicit: every function that can raise returns a
      [result]. Opening files and decoding CSV or JSON are taken to
      succeed. *)

From Stdlib Require Import ZArith Ascii String DecimalString DecimalPos Lia.
From stdpp Require Import base option list sorting gmap strings.

Local Open Scope string_scope.

(** ** Python string primitives *)

Module PyStr.

Definition nl : string := String (ascii_of_nat 10) "".

(** [str.isspace] on one ASCII character: TAB, LF, VT, FF, CR, the four
    separators FS, GS, RS, US, and the blank. *)
Definition isspace (c : ascii) : bool :=
  let n := nat_of_ascii c in
  ((9 <=? n)%nat && (n <=? 13)%nat) || ((28 <=? n)%nat && (n <=? 32)%nat).

(** The whitespace that [int] skips around an ASCII numeral (the C set):
    TAB, LF, VT, FF, CR and the blank. *)
Definition isspace_c (c : ascii) : bool :=
  let n := nat_of_ascii c in
  ((9 <=? n)%nat && (n <=? 13)%nat) || (n =? 32)%nat.

(** Removal of the leading, and of the trailing, characters of a class. *)
Fixpoint lstrip_by (sp : ascii -> bool) (s : string) : string :=
  match s with
  | String c s' => if sp c then lstrip_by sp s' else s
  | EmptyString => EmptyString
  end.

Fixpoint rstrip_by (sp : ascii -> bool) (s : string) : string :=
  match s with
  | String c s' =>
      match rstrip_by sp s' with
      | EmptyString => if sp c then EmptyString else String c EmptyString
      | r => String c r
      end
  | EmptyString => EmptyString
  end.

(** [s.strip()] *)
Definition strip (s : string) : string := rstrip_by isspace (lstrip_by isspace s).

(** [s.split(sep)] for a one-character separator: never the empty list. *)
Fixpoint split (sep : ascii) (s : string) : list string :=
  match s with
  | EmptyString => [EmptyString]
  | String c s' =>
      if Ascii.eqb c sep then EmptyString :: split sep s'
      else match split sep s' with
           | h :: t => String c h :: t
           | [] => [String c EmptyString]
           end
  end.

(** Truth value of a [str]: non-empty. *)
Definition truthy (s : string) : bool :=
  match s with EmptyString => false | String _ _ => true end.

Definition digit_of (c : ascii) : option Z :=
  let n := nat_of_ascii c in
  if (48 <=? n)%nat && (n <=? 57)%nat then Some (Z.of_nat n - 48)%Z else None.

(** Decimal digits with single underscores allowed between two digits.
    [after_digit] says that the previous character was a digit. *)
Fixpoint int_digits (acc : Z) (after_digit : bool) (s : string) : option Z :=
  match s with
  | EmptyString => if after_digit then Some acc else None
  | String c s' =>
      match digit_of c with
      | Some d => int_digits (10 * acc + d)%Z true s'
      | None =>
          if Ascii.eqb c "_" && after_digit then int_digits acc false s'
          else None
      end
  end.

(** [int(s)] in base ten; [None] is [ValueError]. *)
Definition int (s : string) : option Z :=
  match rstrip_by isspace_c (lstrip_by isspace_c s) with
  | String "+" r => int_digits 0 false r
  | String "-" r => Z.opp <$> int_digits 0 false r
  | t => int_digits 0 false t
  end.

(** [str(z)] for an int. *)
Definition str (z : Z) : string := NilEmpty.string_of_int (Z.to_int z).

(** [sep.join(l)] *)
Definition join (sep : string) (l : list string) : string := String.concat sep l.

Fixpoint skip (i : nat) (s : string) : string :=
  match i, s with
  | S i', String _ s' => skip i' s'
  | _, _ => s
  end.

(** [needle] occurs in [hay] at offset [i]. *)
Definition occurs_at (needle hay : string) (i : nat) : bool :=
  (i <=? String.length hay)%nat && String.prefix needle (skip i hay).

(** All offsets of [hay], from [i] on, at which [needle] occurs. *)
Fixpoint occurrences_from (i : nat) (needle hay : string) : list nat :=
  let here := if String.prefix needle hay then [i] else [] in
  match hay with
  | EmptyString => here
  | String _ hay' => here ++ occurrences_from (S i) needle hay'
  end.

Definition occurrences (needle hay : string) : list nat :=
  occurrences_from 0 needle hay.

End PyStr.

(** ** Exceptions and results *)

Inductive exn :=
| ValueError
| KeyError
| IndexError
| ZoneInfoNotFoundError
| URLError
| SystemExit (code : Z).

Inductive result (A : Type) :=
| Ok (a : A)
| Raise (e : exn).
Arguments Ok {A} a.
Arguments Raise {A} e.

(** Exit status of the interpreter: 0 when [main] returns, the code of
    [sys.exit], 1 for any other uncaught exception. *)
Definition exit_status {A} (r : result A) : Z :=
  match r with
  | Ok _ => 0
  | Raise (SystemExit c) => c
  | Raise _ => 1
  end.

(** ** Data *)

(** A value of a [csv.DictReader] row under one key: the column is missing
    from the header, the row is too short ([None]), or a text. *)
Inductive cell :=
| Absent
| Null
| Text (s : string).

Record VocabRow := mkRow { es : cell; pos : cell; de : cell; example : cell }.

(** The JSON state: [used], [last_sent] (a date or [null]) and [sent_hours]. *)
Record State := mkState {
  used : option (list Z);
  last_sent : option (option string);
  sent_hours : option (gmap string (list Z))
}.

Record civil := mkCivil { c_date : string; c_hour : Z }.

(** What [ZoneInfo(TZ)] gives: the module could not be imported
    ([ZoneInfo = None]), the key is unknown, or the civil time in the zone. *)
Inductive zone_lookup :=
| ZoneInfoMissing
| ZoneNotFound
| ZoneNow (now : civil).

Record Clock := mkClock {
  utcnow_hour : Z;          (* datetime.utcnow().hour *)
  local_now : civil;        (* datetime.now(), date.today() *)
  zone_now : zone_lookup    (* datetime.now(ZoneInfo(TZ)) *)
}.

Record Config := mkConfig {
  N_WORDS : Z;
  TZ : string;
  TARGET_HOURS : string;
  FORCE_SEND : bool
}.

(** Reply of [urlopen]: a response, or a raised transport error. *)
Inductive http_reply :=
| HttpReply (status : Z) (body : string)
| HttpFault.

Record Backends := mkBackends {
  telegram_configured : bool;
  telegram_reply : http_reply;
  twilio_configured : bool;
  twilio_reply : http_reply
}.

Record Env := mkEnv {
  config : Config;
  clock : Clock;
  csv_rows : list VocabRow;
  backends : Backends;
  rnd : nat -> nat
}.

Inductive event :=
| Printed (line : string)
| TelegramPost (text : string)
| TwilioPost (text : string)
| Saved (st : State).

Record World := mkWorld { state_file : option State; log : list event }.

(** ** The run monad: a world-passing computation that may raise *)

Definition M (A : Type) : Type := World -> result A * World.

Definition ret {A} (a : A) : M A := fun w => (Ok a, w).

Definition bind {A B} (m : M A) (k : A -> M B) : M B :=
  fun w => match m w with
           | (Ok a, w') => k a w'
           | (Raise e, w') => (Raise e, w')
           end.

Definition raise {A} (e : exn) : M A := fun w => (Raise e, w).

Definition lift {A} (r : result A) : M A := fun w => (r, w).

Definition emit (ev : event) : M unit :=
  fun w => (Ok tt, {| state_file := state_file w; log := log w ++ [ev] |}).

Definition py_print (line : string) : M unit := emit (Printed line).

#[global] Instance M_ret : MRet M := @ret.
#[global] Instance M_bind : MBind M := fun A B k m => bind m k.

(** ** The schedule guard: [schedule_allows_sending] *)

(** The [try] block: the tokens of [TARGET_HOURS.split(",")] that are not
    blank are stripped and converted, in order; one [ValueError] empties
    the whole list. *)
Definition parse_target_hours (s : string) : list Z :=
  let tokens := List.filter (fun h => PyStr.truthy (PyStr.strip h)) (PyStr.split "," s) in
  match mapM (fun h => PyStr.int (PyStr.strip h)) tokens with
  | Some targets => targets
  | None => []
  end.

(** Returns [(allowed, date_str, hour)]. *)
Definition schedule_allows_sending (cfg : Config) (clk : Clock)
  : result (bool * string * Z) :=
  if FORCE_SEND cfg || negb (PyStr.truthy (PyStr.strip (TARGET_HOURS cfg))) then
    Ok (true, c_date (local_now clk), utcnow_hour clk)
  else
    match zone_now clk with
    | ZoneNotFound => Raise ZoneInfoNotFoundError
    | tz =>
        let now := match tz with ZoneNow t => t | _ => local_now clk end in
        let date_str := c_date now in
        let hour := c_hour now in
        let targets := parse_target_hours (TARGET_HOURS cfg) in
        Ok (bool_decide (hour ∈ targets), date_str, hour)
    end.

(** ** Delivery backends *)

Definition send_telegram (b : Backends) (text : string) : M unit :=
  if negb (telegram_configured b) then
    py_print "Telegram not configured; skipping Telegram send."
  else
    emit (TelegramPost text);;
    match telegram_reply b with
    | HttpFault => raise URLError
    | HttpReply status body =>
        py_print ("Telegram status: " ++ PyStr.str status);;
        py_print ("Telegram response body: " ++ body)
    end.

Definition send_twilio_whatsapp (b : Backends) (text : string) : M unit :=
  if negb (twilio_configured b) then
    py_print "Twilio WhatsApp not configured; skipping WhatsApp send."
  else
    emit (TwilioPost text);;
    match twilio_reply b with
    | HttpFault => raise URLError
    | HttpReply status _ => py_print ("Twilio status: " ++ PyStr.str status)
    end.

(** ** Vocabulary and state files *)

(** [row.get("es")] is truthy: the cell holds a non-empty text. *)
Definition cell_truthy (c : cell) : bool :=
  match c with
  | Text s => PyStr.truthy s
  | _ => false
  end.

Definition load_vocab (rows : list VocabRow) : list VocabRow :=
  List.filter (fun row => cell_truthy (es row)) rows.

Definition fresh_state : State :=
  {| used := Some []; last_sent := Some None; sent_hours := Some ∅ |}.

Definition load_state : M State :=
  fun w => (Ok (default fresh_state (state_file w)), w).

Definition save_state (state : State) : M unit :=
  fun w => (Ok tt, {| state_file := Some state; log := log w ++ [Saved state] |}).

(** ** Selection: [random.sample] and [pick_words] *)

(** The pool loop of [random.sample]: draw [i] takes position
    [randbelow(m)] of the [m] live positions of the pool and moves the last
    live element into the hole. [randbelow(m)] is the [i]-th draw of the
    generator reduced modulo [m]. (For large populations the library
    selects by rejection instead; both loops return [k] elements at
    distinct positions, in the order drawn, and every such sequence is the
    result of the pool loop for some generator.) *)
Fixpoint sample_pool {A} (rnd : nat -> nat) (i k m : nat) (pool : list A)
  : option (list A) :=
  match k with
  | O => Some []
  | S k' =>
      let j := (rnd i mod m)%nat in
      x ← pool !! j;
      y ← pool !! (m - 1)%nat;
      rest ← sample_pool rnd (S i) k' (m - 1)%nat (<[j := y]> pool);
      Some (x :: rest)
  end.

(** [random.sample(population, k)]: [ValueError] unless [0 <= k <= n]. *)
Definition random_sample {A} (rnd : nat -> nat) (population : list A) (k : Z)
  : result (list A) :=
  let n := length population in
  if (k <? 0)%Z || (Z.of_nat n <? k)%Z then Raise ValueError
  else match sample_pool rnd 0 (Z.to_nat k) n population with
       | Some chosen => Ok chosen
       | None => Raise IndexError
       end.

(** [sorted(list(s))] for a set of ints. *)
Definition sorted_list (s : gset Z) : list Z := merge_sort Z.le (elements s).

(** The indices of [range(total)] that are not in [used_set]. *)
Definition available (total : nat) (used_set : gset Z) : list nat :=
  filter (fun i => Z.of_nat i ∉ used_set) (seq 0 total).

(** [pick_words(vocab, state, n)]: returns the chosen rows and the state
    dict after its in-place updates. [today] is [str(date.today())]. *)
Definition pick_words (rnd : nat -> nat) (today : string)
    (vocab : list VocabRow) (state : State) (n : Z)
  : result (list VocabRow * State) :=
  let total := length vocab in
  let used_set : gset Z := list_to_set (default [] (used state)) in
  let available_idxs := available total used_set in
  let '(used_set, available_idxs) :=
    if (Z.of_nat (length available_idxs) <? n)%Z then (∅, seq 0 total)
    else (used_set, available_idxs) in
  match random_sample rnd available_idxs n with
  | Raise e => Raise e
  | Ok chosen =>
      let used_set := used_set ∪ list_to_set (Z.of_nat <$> chosen) in
      let state :=
        {| used := Some (sorted_list used_set);
           last_sent := Some (Some today);
           sent_hours := sent_hours state |} in
      match mapM (fun i => vocab !! i) chosen with
      | Some words => Ok (words, state)
      | None => Raise IndexError
      end
  end.

(** ** The message template: [format_message] *)

(** A cell inside an f-string after [w.get(key, "")]. *)
Definition cell_text (c : cell) : string :=
  match c with
  | Absent => ""
  | Null => "None"
  | Text s => s
  end.

(** One numbered entry; [w["es"]] raises [KeyError] on a missing key. *)
Definition format_entry (i : Z) (w : VocabRow) : result string :=
  match es w with
  | Absent => Raise KeyError
  | c =>
      Ok (PyStr.nl ++ PyStr.str i ++ ". " ++ cell_text c
          ++ " [" ++ cell_text (pos w) ++ "] — " ++ cell_text (de w)
          ++ PyStr.nl ++ "   ↪ Ej.: " ++ cell_text (example w))
  end.

(** The loop over [enumerate(words, i)]. *)
Fixpoint format_entries (i : Z) (words : list VocabRow) : result (list string) :=
  match words with
  | [] => Ok []
  | w :: ws =>
      match format_entry i w with
      | Raise e => Raise e
      | Ok line =>
          match format_entries (i + 1) ws with
          | Raise e => Raise e
          | Ok lines => Ok (line :: lines)
          end
      end
  end.

(** [today] is [date.today().isoformat()]. *)
Definition format_message (today : string) (words : list VocabRow) : result string :=
  match format_entries 1 words with
  | Raise e => Raise e
  | Ok entries =>
      let lines :=
        ("📚 Palabras del día (" ++ today ++ "):") :: entries
        ++ [PyStr.nl ++ "¡Ánimo! 💪"] in
      Ok (PyStr.join PyStr.nl lines)
  end.

(** ** The run: [main] *)

(** Lines 132-146 of [main]: everything after the two guards. *)
Definition main_send (e : Env) (date_str : string) (hour : Z) (state : State)
    (sent_hours_map : gmap string (list Z)) (hours_today : gset Z) : M unit :=
  let today := c_date (local_now (clock e)) in
  let vocab := load_vocab (csv_rows e) in
  if (Z.of_nat (length vocab) <? N_WORDS (config e))%Z then
    py_print "Vocab list too small.";;
    raise (SystemExit 1)
  else
    '(words, state) ← lift (pick_words (rnd e) today vocab state (N_WORDS (config e)));
    text ← lift (format_message today words);
    send_telegram (backends e) text;;
    send_twilio_whatsapp (backends e) text;;
    let hours_today := {[hour]} ∪ hours_today in
    let sent_hours_map := <[date_str := sorted_list hours_today]> sent_hours_map in
    let state :=
      {| used := used state; last_sent := last_sent state;
         sent_hours := Some sent_hours_map |} in
    save_state state;;
    py_print text.

Definition main (e : Env) : M unit :=
  let force := FORCE_SEND (config e) in
  '(allowed, date_str, hour) ← lift (schedule_allows_sending (config e) (clock e));
  state ← load_state;
  let sent_hours_map := default ∅ (sent_hours state) in
  let hours_today : gset Z := list_to_set (default [] (sent_hours_map !! date_str)) in
  if negb allowed && negb force then
    py_print ("Schedule guard: not a target hour (" ++ PyStr.str hour ++ ") in "
              ++ TZ (config e) ++ ". Skipping send.")
  else if bool_decide (hour ∈ hours_today) && negb force then
    py_print ("Already sent for " ++ date_str ++ " at hour " ++ PyStr.str hour
              ++ ". Skipping duplicate.")
  else
    main_send e date_str hour state sent_hours_map hours_today.

(** ** Vocabulary of the statements *)

(** A run of the script: [main] from an empty log. *)
Definition run (e : Env) (file : option State) : result unit * World :=
  main e {| state_file := file; log := [] |}.

(** The [sent_hours] dict that [main] reads from the state file, and the
    set of hours it holds for one date. *)
Definition sent_hours_of (file : option State) : gmap string (list Z) :=
  default ∅ (sent_hours (default fresh_state file)).

Definition hours_recorded (file : option State) (d : string) : gset Z :=
  list_to_set (default [] (sent_hours_of file !! d)).

(** The run that passed both guards with the pair [(d, h)]. *)
Definition send_run (e : Env) (file : option State) (d : string) (h : Z)
  : result unit * World :=
  main_send e d h (default fresh_state file) (sent_hours_of file)
    (hours_recorded file d) {| state_file := file; log := [] |}.

(** The run that stopped at a guard: one console line, nothing else. *)
Definition skipped (file : option State) (line : string) : result unit * World :=
  (Ok tt, {| state_file := file; log := [Printed line] |}).

Definition schedule_skip_line (e : Env) (h : Z) : string :=
  "Schedule guard: not a target hour (" ++ PyStr.str h ++ ") in "
  ++ TZ (config e) ++ ". Skipping send.".

Definition duplicate_skip_line (d : string) (h : Z) : string :=
  "Already sent for " ++ d ++ " at hour " ++ PyStr.str h ++ ". Skipping duplicate.".

(** The decision of the specification, in its words: forced, or the
    schedule gate is satisfied (no target hours, or the hour is one of
    them) and the hour was not sent yet today. *)
Definition should_send (hour : Z) (targetHours : list Z) (sentHoursToday : gset Z)
    (forceOverride : bool) : bool :=
  forceOverride
  || ((bool_decide (targetHours = []) || bool_decide (hour ∈ targetHours))
      && negb (bool_decide (hour ∈ sentHoursToday))).

(** The comma-separated configuration string of a list of target hours. *)
Definition target_hours_config (targetHours : list Z) : string :=
  PyStr.join "," (PyStr.str <$> targetHours).

(** The configuration string is empty or blank: [not TARGET_HOURS.strip()]. *)
Definition blank (s : string) : bool := negb (PyStr.truthy (PyStr.strip s)).

(** Neither a space nor a comma: the characters of a rendered int. *)
Definition plain (c : ascii) : bool :=
  negb (PyStr.isspace c) && negb (Ascii.eqb c ",").

Fixpoint all_plain (s : string) : bool :=
  match s with
  | EmptyString => true
  | String c s' => plain c && all_plain s'
  end.

(** A class of characters that holds no character of a rendered int. *)
Definition spares_plain (sp : ascii -> bool) : Prop :=
  forall c, plain c = true -> sp c = false.

Fixpoint all_space (s : string) : bool :=
  match s with
  | EmptyString => true
  | String c s' => PyStr.isspace c && all_space s'
  end.

(** Both guards let the run through, with the pair [(d, h)]. *)
Definition permitted (e : Env) (file : option State) (d : string) (h : Z) : Prop :=
  ∃ allowed,
    schedule_allows_sending (config e) (clock e) = Ok (allowed, d, h)
    ∧ (FORCE_SEND (config e) = true
       ∨ (allowed = true ∧ h ∉ hours_recorded file d)).

(** What the log says about the two backends and the state file. *)
Definition telegram_ran (l : list event) : Prop :=
  (∃ text, TelegramPost text ∈ l)
  ∨ Printed "Telegram not configured; skipping Telegram send." ∈ l.

Definition twilio_ran (l : list event) : Prop :=
  (∃ text, TwilioPost text ∈ l)
  ∨ Printed "Twilio WhatsApp not configured; skipping WhatsApp send." ∈ l.

Definition state_saved (l : list event) : Prop := ∃ st, Saved st ∈ l.

Definition telegram_raises (b : Backends) : bool :=
  telegram_configured b && match telegram_reply b with HttpFault => true | _ => false end.

Definition twilio_raises (b : Backends) : bool :=
  twilio_configured b && match twilio_reply b with HttpFault => true | _ => false end.

(** The events of the two delivery calls, and the state that is saved. *)
Definition telegram_events (b : Backends) (text : string) : list event :=
  if negb (telegram_configured b) then
    [Printed "Telegram not configured; skipping Telegram send."]
  else
    TelegramPost text ::
    match telegram_reply b with
    | HttpFault => []
    | HttpReply status body =>
        [Printed ("Telegram status: " ++ PyStr.str status);
         Printed ("Telegram response body: " ++ body)]
    end.

Definition twilio_events (b : Backends) (text : string) : list event :=
  if negb (twilio_configured b) then
    [Printed "Twilio WhatsApp not configured; skipping WhatsApp send."]
  else
    TwilioPost text ::
    match twilio_reply b with
    | HttpFault => []
    | HttpReply status _ => [Printed ("Twilio status: " ++ PyStr.str status)]
    end.

Definition saved_state (picked : State) (m : gmap string (list Z)) (d : string)
    (h : Z) (hours_today : gset Z) : State :=
  {| used := used picked; last_sent := last_sent picked;
     sent_hours := Some (<[d := sorted_list ({[h]} ∪ hours_today)]> m) |}.

Definition add_events (w : World) (evs : list event) : World :=
  {| state_file := state_file w; log := log w ++ evs |}.

(** ** Concrete inputs *)

Definition ola : VocabRow :=
  {| es := Text "ola"; pos := Text "interj"; de := Text "hi"; example := Text "¡Ola!" |}.

Definition acaso : VocabRow :=
  {| es := Text "acaso"; pos := Text "adv"; de := Text "etwa";
     example := Text "¿Acaso no lo ves?" |}.

Definition hallazgo : VocabRow :=
  {| es := Text "hallazgo"; pos := Text "n"; de := Text "Fund";
     example := Text "Un hallazgo." |}.

Definition desde_luego : VocabRow :=
  {| es := Text "desde luego"; pos := Text "loc"; de := Text "natürlich";
     example := Null |}.

Definition sample_vocab : list VocabRow := [ola; acaso; hallazgo; desde_luego].

Definition both_backends_ok : Backends :=
  {| telegram_configured := true; telegram_reply := HttpReply 200 "{}";
     twilio_configured := true; twilio_reply := HttpReply 201 "" |}.

Definition telegram_down : Backends :=
  {| telegram_configured := true; telegram_reply := HttpFault;
     twilio_configured := true; twilio_reply := HttpReply 201 "" |}.

Definition twilio_down : Backends :=
  {| telegram_configured := true; telegram_reply := HttpReply 200 "{}";
     twilio_configured := true; twilio_reply := HttpFault |}.

Definition with_backends (e : Env) (b : Backends) : Env :=
  {| config := config e; clock := clock e; csv_rows := csv_rows e;
     backends := b; rnd := rnd e |}.

(** An environment for one row of the guard's truth table: every clock
    shows the date 2024-01-01 and the given hour. *)
Definition row_env (targets : string) (hour : Z) (force : bool) : Env :=
  {| config := {| N_WORDS := 3; TZ := "Europe/Berlin";
                  TARGET_HOURS := targets; FORCE_SEND := force |};
     clock := {| utcnow_hour := hour;
                 local_now := {| c_date := "2024-01-01"; c_hour := hour |};
                 zone_now := ZoneNow {| c_date := "2024-01-01"; c_hour := hour |} |};
     csv_rows := sample_vocab;
     backends := both_backends_ok;
     rnd := fun i => i |}.

(** A state file whose record for 2024-01-01 holds the given hours. *)
Definition row_file (sent : list Z) : option State :=
  Some {| used := Some []; last_sent := Some None;
          sent_hours := Some {[ "2024-01-01" := sent ]} |}.

(** ** Module-level configuration and credentials *)

(** [os.environ.get(key, default)] and [os.environ.get(key)]. *)
Definition environ_get (environ : gmap string string) (key default_value : string)
  : string :=
  default default_value (environ !! key).

(** The assignments at import time: [N_WORDS], [TZ], [TARGET_HOURS] and
    [FORCE_SEND]. [int] may raise [ValueError]. *)
Definition config_of_environ (environ : gmap string string) : result Config :=
  match PyStr.int (environ_get environ "N_WORDS" "3") with
  | None => Raise ValueError
  | Some n =>
      Ok {| N_WORDS := n;
            TZ := environ_get environ "TZ" "Europe/Berlin";
            TARGET_HOURS := environ_get environ "TARGET_HOURS" "";
            FORCE_SEND := bool_decide (environ !! "FORCE_SEND" = Some "1") |}
  end.

(** Truth value of [os.environ.get(key)]: set and not empty. *)
Definition env_truthy (v : option string) : bool :=
  match v with
  | Some s => PyStr.truthy s
  | None => false
  end.

(** The credential tests of [send_telegram] and [send_twilio_whatsapp]:
    [not token or not chat_id], [not (sid and token and wa_from and wa_to)]. *)
Definition backends_of_environ (environ : gmap string string)
    (telegram twilio : http_reply) : Backends :=
  {| telegram_configured :=
       env_truthy (environ !! "TELEGRAM_BOT_TOKEN")
       && env_truthy (environ !! "TELEGRAM_CHAT_ID");
     telegram_reply := telegram;
     twilio_configured :=
       env_truthy (environ !! "TWILIO_ACCOUNT_SID")
       && env_truthy (environ !! "TWILIO_AUTH_TOKEN")
       && env_truthy (environ !! "TWILIO_WHATSAPP_FROM")
       && env_truthy (environ !! "TWILIO_WHATSAPP_TO");
     twilio_reply := twilio |}.

(** The script as a whole: the module-level assignments, then [main]. *)
Definition script (environ : gmap string string) (clk : Clock)
    (rows : list VocabRow) (telegram twilio : http_reply) (rnd : nat -> nat)
  : M unit :=
  match config_of_environ environ with
  | Raise x => raise x
  | Ok cfg =>
      main {| config := cfg; clock := clk; csv_rows := rows;
              backends := backends_of_environ environ telegram twilio;
              rnd := rnd |}
  end.

(** ** Further vocabulary of the statements *)

(** The texts posted to each backend and the states written, in order. *)
Definition telegram_posts (l : list event) : list string :=
  omap (fun ev => match ev with TelegramPost t => Some t | _ => None end) l.

Definition twilio_posts (l : list event) : list string :=
  omap (fun ev => match ev with TwilioPost t => Some t | _ => None end) l.

Definition saves (l : list event) : list State :=
  omap (fun ev => match ev with Saved st => Some st | _ => None end) l.

(** The three kinds of lines of the message. *)
Definition headline (today : string) : string :=
  "📚 Palabras del día (" ++ today ++ "):".

Definition entry_line (i : Z) (w : VocabRow) : string :=
  PyStr.nl ++ PyStr.str i ++ ". " ++ cell_text (es w)
  ++ " [" ++ cell_text (pos w) ++ "] — " ++ cell_text (de w)
  ++ PyStr.nl ++ "   ↪ Ej.: " ++ cell_text (example w).

Definition footer : string := PyStr.nl ++ "¡Ánimo! 💪".

(** An index of [range(total)], as an int of the used list. *)
Definition valid_index (total : nat) (z : Z) : Prop :=
  (0 <= z < Z.of_nat total)%Z.

(** A piece of a hand-written target-hours string: blanks only, or an
    hour with blanks around it. *)
Inductive piece :=
| Blanks (sp : string)
| Hour (l : string) (z : Z) (r : string).

Definition render_piece (p : piece) : string :=
  match p with
  | Blanks sp => sp
  | Hour l z r => l ++ PyStr.str z ++ r
  end.

Definition piece_ok (p : piece) : Prop :=
  match p with
  | Blanks sp => all_space sp = true
  | Hour l _ r => all_space l = true /\ all_space r = true
  end.

Definition piece_hour (p : piece) : option Z :=
  match p with
  | Blanks _ => None
  | Hour _ z _ => Some z
  end.

Fixpoint comma_free (s : string) : bool :=
  match s with
  | EmptyString => true
  | String c s' => negb (Ascii.eqb c ",") && comma_free s'
  end.

(** The end of a run that reached the deliveries with the message [text]
    and would save [st']. *)
Definition delivery_outcome (b : Backends) (file : option State) (st' : State)
    (text : string) : result unit * World :=
  if telegram_raises b then
    (Raise URLError, {| state_file := file; log := telegram_events b text |})
  else if twilio_raises b then
    (Raise URLError,
     {| state_file := file; log := telegram_events b text ++ twilio_events b text |})
  else
    (Ok tt,
     {| state_file := Some st';
        log := telegram_events b text ++ twilio_events b text
               ++ [Saved st'; Printed text] |}).

(** Further concrete inputs. *)
Definition no_backends : Backends :=
  {| telegram_configured := false; telegram_reply := HttpFault;
     twilio_configured := false; twilio_reply := HttpFault |}.

Definition berlin_clock : Clock :=
  {| utcnow_hour := 8;
     local_now := {| c_date := "2024-01-01"; c_hour := 8 |};
     zone_now := ZoneNow {| c_date := "2024-01-01"; c_hour := 9 |} |}.

(** A scheduled run whose [TZ] does not name a zone. *)
Definition misspelt_zone_env : Env :=
  {| config := {| N_WORDS := 3; TZ := "Europe/Berlim"; TARGET_HOURS := "9";
                  FORCE_SEND := false |};
     clock := {| utcnow_hour := 8;
                 local_now := {| c_date := "2024-01-01"; c_hour := 9 |};
                 zone_now := ZoneNotFound |};
     csv_rows := sample_vocab; backends := both_backends_ok;
     rnd := fun i => i |}.

(** A run with a negative word count. *)
Definition negative_count_env : Env :=
  {| config := {| N_WORDS := -1; TZ := "Europe/Berlin"; TARGET_HOURS := "";
                  FORCE_SEND := false |};
     clock := berlin_clock; csv_rows := sample_vocab;
     backends := both_backends_ok; rnd := fun i => i |}.

(** * Properties *)

(** ** Decimal text: [int(str(z)) = z] *)

Section Decimal.
Import PyStr.

Lemma int_digits_digit (acc d : Z) (b : bool) (c : ascii) (s : string) :
  digit_of c = Some d ->
  int_digits acc b (String c s) = int_digits (10 * acc + d) true s.
Proof. intros H. cbn [int_digits]. rewrite H. reflexivity. Qed.

Ltac digit_step d :=
  cbn [NilEmpty.string_of_uint Pos.of_uint_acc Pos.of_uint];
  first [ rewrite (int_digits_digit _ 0 _ "0" _ eq_refl)
        | rewrite (int_digits_digit _ 1 _ "1" _ eq_refl)
        | rewrite (int_digits_digit _ 2 _ "2" _ eq_refl)
        | rewrite (int_digits_digit _ 3 _ "3" _ eq_refl)
        | rewrite (int_digits_digit _ 4 _ "4" _ eq_refl)
        | rewrite (int_digits_digit _ 5 _ "5" _ eq_refl)
        | rewrite (int_digits_digit _ 6 _ "6" _ eq_refl)
        | rewrite (int_digits_digit _ 7 _ "7" _ eq_refl)
        | rewrite (int_digits_digit _ 8 _ "8" _ eq_refl)
        | rewrite (int_digits_digit _ 9 _ "9" _ eq_refl) ].

Lemma int_digits_acc (d : Decimal.uint) (p : positive) :
  int_digits (Z.pos p) true (NilEmpty.string_of_uint d)
  = Some (Z.pos (Pos.of_uint_acc d p)).
Proof.
  revert p; induction d; intros p; [reflexivity|..];
    digit_step d; rewrite <- IHd; f_equal; lia.
Qed.

Lemma int_digits_uint (d : Decimal.uint) :
  int_digits 0 true (NilEmpty.string_of_uint d) = Some (Z.of_N (Pos.of_uint d)).
Proof.
  induction d; [reflexivity|..]; digit_step d;
    first [ exact IHd | apply (int_digits_acc d) ].
Qed.

Lemma int_digits_start (d : Decimal.uint) :
  d <> Decimal.Nil ->
  int_digits 0 false (NilEmpty.string_of_uint d) = Some (Z.of_N (Pos.of_uint d)).
Proof.
  destruct d; intros Hd; [congruence|..]; digit_step d;
    first [ apply (int_digits_uint d) | apply (int_digits_acc d) ].
Qed.

Lemma all_plain_uint (d : Decimal.uint) : all_plain (NilEmpty.string_of_uint d) = true.
Proof. induction d; simpl; auto. Qed.

Lemma all_plain_str (z : Z) : all_plain (str z) = true.
Proof.
  unfold str. destruct (Z.to_int z); simpl; apply all_plain_uint.
Qed.

Lemma str_nonempty (z : Z) : str z <> "".
Proof.
  unfold str. destruct z as [|p|p]; simpl; try discriminate.
  unfold Pos.to_uint.
  intros H. pose proof (DecimalPos.Unsigned.of_to p) as E.
  unfold Pos.to_uint in E.
  destruct (Decimal.rev (Pos.to_little_uint p)); simpl in *; discriminate.
Qed.

Lemma isspace_spares_plain : spares_plain isspace.
Proof.
  intros c Hc. apply andb_prop in Hc as [Hc _]. apply negb_true_iff, Hc.
Qed.

Lemma isspace_c_spares_plain : spares_plain isspace_c.
Proof.
  intros c Hc. apply isspace_spares_plain in Hc. revert Hc.
  destruct c as [[] [] [] [] [] [] [] []]; vm_compute; congruence.
Qed.

Lemma rstrip_plain (sp : ascii -> bool) (s : string) :
  spares_plain sp -> all_plain s = true -> rstrip_by sp s = s.
Proof.
  intros Hsp. induction s as [|c s IH]; simpl; [reflexivity|].
  intros [Hc Hs]%andb_prop. rewrite (IH Hs), (Hsp c Hc).
  destruct s; reflexivity.
Qed.

Lemma lstrip_plain (sp : ascii -> bool) (s : string) :
  spares_plain sp -> all_plain s = true -> lstrip_by sp s = s.
Proof.
  intros Hsp. destruct s as [|c s]; simpl; [reflexivity|].
  intros [Hc _]%andb_prop. rewrite (Hsp c Hc). reflexivity.
Qed.

Lemma strip_plain (s : string) : all_plain s = true -> strip s = s.
Proof.
  intros H. unfold strip.
  rewrite (lstrip_plain _ s isspace_spares_plain H).
  apply rstrip_plain; [apply isspace_spares_plain|exact H].
Qed.

Lemma int_str (z : Z) : int (str z) = Some z.
Proof.
  unfold int.
  rewrite (lstrip_plain _ _ isspace_c_spares_plain (all_plain_str z)).
  rewrite (rstrip_plain _ _ isspace_c_spares_plain (all_plain_str z)).
  unfold str. destruct z as [|p|p]; simpl.
  - reflexivity.
  - pose proof (DecimalPos.Unsigned.of_to p) as E.
    assert (Hn : Pos.to_uint p <> Decimal.Nil).
    { intros Hn. rewrite Hn in E. discriminate. }
    pose proof (int_digits_start _ Hn) as Hd. rewrite E in Hd.
    destruct (Pos.to_uint p); try congruence; simpl in *; exact Hd.
  - pose proof (DecimalPos.Unsigned.of_to p) as E.
    assert (Hn : Pos.to_uint p <> Decimal.Nil).
    { intros Hn. rewrite Hn in E. discriminate. }
    rewrite (int_digits_start _ Hn), E. reflexivity.
Qed.

End Decimal.

(** ** The configuration string of a list of target hours *)

Section TargetHoursConfig.
Import PyStr.

Lemma split_plain (s : string) : all_plain s = true -> split "," s = [s].
Proof.
  induction s as [|c s IH]; simpl; [reflexivity|].
  intros [Hc Hs]%andb_prop. apply andb_prop in Hc as [_ Hc].
  apply negb_true_iff in Hc. rewrite Hc, (IH Hs). reflexivity.
Qed.

Lemma split_plain_app (x rest : string) :
  all_plain x = true ->
  split "," (x ++ String "," rest) = x :: split "," rest.
Proof.
  induction x as [|c x IH]; simpl; [reflexivity|].
  intros [Hc Hx]%andb_prop. apply andb_prop in Hc as [_ Hc].
  apply negb_true_iff in Hc. rewrite Hc, (IH Hx). reflexivity.
Qed.

Lemma split_join (l : list string) :
  l <> [] -> Forall (fun s => all_plain s = true) l ->
  split "," (join "," l) = l.
Proof.
  induction l as [|x l IH]; [congruence|]. intros _ Hl.
  apply Forall_cons in Hl as [Hx Hl]. unfold join in *.
  destruct l as [|y l]; simpl.
  - apply split_plain, Hx.
  - change (split "," (x ++ String "," (String.concat "," (y :: l))) = x :: y :: l).
    rewrite (split_plain_app _ _ Hx). f_equal. apply IH; [congruence|exact Hl].
Qed.

Lemma strip_head (c : ascii) (s : string) :
  isspace c = false -> exists r, strip (String c s) = String c r.
Proof.
  intros Hc. unfold strip. cbn [lstrip_by]. rewrite Hc. cbn [rstrip_by].
  destruct (rstrip_by isspace s); [rewrite Hc|]; eauto.
Qed.

Lemma parse_rendered (ts : list Z) :
  mapM (fun h => int (strip h))
    (List.filter (fun h => truthy (strip h)) (str <$> ts)) = Some ts.
Proof.
  induction ts as [|z ts IH]; [reflexivity|].
  cbn [fmap list_fmap List.filter].
  rewrite (strip_plain _ (all_plain_str z)).
  pose proof (str_nonempty z) as Hz.
  destruct (str z) eqn:E; [congruence|]. cbn [truthy]. rewrite <- E.
  cbn [mapM]. rewrite (strip_plain _ (all_plain_str z)), int_str.
  cbn. rewrite IH. reflexivity.
Qed.

Lemma parse_target_hours_config (ts : list Z) :
  parse_target_hours (target_hours_config ts) = ts.
Proof.
  unfold parse_target_hours, target_hours_config.
  destruct ts as [|z ts]; [reflexivity|].
  rewrite split_join.
  - rewrite parse_rendered. reflexivity.
  - discriminate.
  - apply Forall_fmap, Forall_forall. intros x _. apply all_plain_str.
Qed.

Lemma blank_target_hours_config (ts : list Z) :
  blank (target_hours_config ts) = bool_decide (ts = []).
Proof.
  destruct ts as [|z ts]; [reflexivity|].
  rewrite bool_decide_eq_false_2 by discriminate.
  unfold blank, target_hours_config, join.
  pose proof (str_nonempty z) as Hz. pose proof (all_plain_str z) as Hp.
  assert (exists c s, String.concat "," (str <$> z :: ts) = String c s
                      /\ isspace c = false) as (c & s & -> & Hc).
  { cbn [fmap list_fmap String.concat]. destruct (str z) as [|c s]; [congruence|].
    simpl in Hp. apply andb_prop in Hp as [Hc _]. apply andb_prop in Hc as [Hc _].
    apply negb_true_iff in Hc.
    destruct (str <$> ts); simpl; eauto. }
  destruct (strip_head c s Hc) as [r ->]. reflexivity.
Qed.

End TargetHoursConfig.

(** ** The run, step by step *)

Ltac run_monad :=
  unfold mbind, M_bind, bind, lift, py_print, emit, raise, save_state, add_events;
  cbn.

Lemma send_telegram_run (b : Backends) (text : string) (w : World) :
  send_telegram b text w
  = (if telegram_raises b then Raise URLError else Ok tt,
     add_events w (telegram_events b text)).
Proof.
  unfold send_telegram, telegram_raises, telegram_events.
  destruct (telegram_configured b), (telegram_reply b); run_monad;
    rewrite <- ?app_assoc; reflexivity.
Qed.

Lemma send_twilio_whatsapp_run (b : Backends) (text : string) (w : World) :
  send_twilio_whatsapp b text w
  = (if twilio_raises b then Raise URLError else Ok tt,
     add_events w (twilio_events b text)).
Proof.
  unfold send_twilio_whatsapp, twilio_raises, twilio_events.
  destruct (twilio_configured b), (twilio_reply b); run_monad;
    rewrite <- ?app_assoc; reflexivity.
Qed.

Section MainSend.
Context (e : Env) (d : string) (h : Z) (st : State)
        (m : gmap string (list Z)) (ht : gset Z) (w : World).

Let today := c_date (local_now (clock e)).
Let vocab := load_vocab (csv_rows e).
Let n := N_WORDS (config e).
Let b := backends e.

Lemma main_send_too_small :
  (Z.of_nat (length vocab) < n)%Z ->
  main_send e d h st m ht w
  = (Raise (SystemExit 1), add_events w [Printed "Vocab list too small."]).
Proof.
  intros Hn. unfold main_send. fold vocab n.
  rewrite (proj2 (Z.ltb_lt _ _) Hn). reflexivity.
Qed.

Lemma main_send_pick_raises (x : exn) :
  (n <= Z.of_nat (length vocab))%Z ->
  pick_words (rnd e) today vocab st n = Raise x ->
  main_send e d h st m ht w = (Raise x, w).
Proof.
  intros Hn Hp. unfold main_send. fold vocab n today.
  rewrite (proj2 (Z.ltb_ge _ _) Hn). run_monad. rewrite Hp. reflexivity.
Qed.

Lemma main_send_format_raises (words : list VocabRow) (picked : State) (x : exn) :
  (n <= Z.of_nat (length vocab))%Z ->
  pick_words (rnd e) today vocab st n = Ok (words, picked) ->
  format_message today words = Raise x ->
  main_send e d h st m ht w = (Raise x, w).
Proof.
  intros Hn Hp Hf. unfold main_send. fold vocab n today.
  rewrite (proj2 (Z.ltb_ge _ _) Hn). run_monad. rewrite Hp, Hf. reflexivity.
Qed.

Lemma main_send_delivers (words : list VocabRow) (picked : State) (text : string) :
  (n <= Z.of_nat (length vocab))%Z ->
  pick_words (rnd e) today vocab st n = Ok (words, picked) ->
  format_message today words = Ok text ->
  main_send e d h st m ht w
  = if telegram_raises b then
      (Raise URLError, add_events w (telegram_events b text))
    else if twilio_raises b then
      (Raise URLError, add_events w (telegram_events b text ++ twilio_events b text))
    else
      (Ok tt,
       {| state_file := Some (saved_state picked m d h ht);
          log := log w ++ telegram_events b text ++ twilio_events b text
                 ++ [Saved (saved_state picked m d h ht); Printed text] |}).
Proof.
  intros Hn Hp Hf. unfold main_send. fold vocab n today b.
  rewrite (proj2 (Z.ltb_ge _ _) Hn).
  unfold mbind, M_bind, bind, lift. rewrite Hp, Hf.
  rewrite send_telegram_run. destruct (telegram_raises b); [reflexivity|].
  rewrite send_twilio_whatsapp_run. unfold add_events. cbn [log state_file].
  destruct (twilio_raises b); [rewrite <- app_assoc; reflexivity|].
  unfold save_state, py_print, emit, saved_state. cbn [log state_file].
  rewrite <- !app_assoc. reflexivity.
Qed.

(** A run that passed the guards raises, or ends with the write of the
    state file followed by the console copy of the message. *)
Lemma main_send_outcome :
  (exists x w', main_send e d h st m ht w = (Raise x, w'))
  \/ (exists st' evs text,
        main_send e d h st m ht w
        = (Ok tt, {| state_file := Some st';
                     log := log w ++ evs ++ [Saved st'; Printed text] |})).
Proof.
  destruct (Z.lt_ge_cases (Z.of_nat (length vocab)) n) as [Hn|Hn].
  { left. rewrite (main_send_too_small Hn). eauto. }
  destruct (pick_words (rnd e) today vocab st n) as [[words picked]|x] eqn:Hp.
  2:{ left. rewrite (main_send_pick_raises x Hn Hp). eauto. }
  destruct (format_message today words) as [text|x] eqn:Hf.
  2:{ left. rewrite (main_send_format_raises words picked x Hn Hp Hf). eauto. }
  rewrite (main_send_delivers words picked text Hn Hp Hf).
  destruct (telegram_raises b); [left; eauto|].
  destruct (twilio_raises b); [left; eauto|].
  right. exists (saved_state picked m d h ht),
    (telegram_events b text ++ twilio_events b text)%list, text.
  rewrite <- app_assoc. reflexivity.
Qed.

End MainSend.

Lemma send_run_not_skipped (e : Env) (file : option State) (d : string) (h : Z)
    (line : string) :
  send_run e file d h <> skipped file line.
Proof.
  unfold send_run, skipped.
  destruct (main_send_outcome e d h (default fresh_state file) (sent_hours_of file)
              (hours_recorded file d) {| state_file := file; log := [] |})
    as [(x & w' & ->)|(st' & evs & text & ->)]; [discriminate|].
  cbn [log]. intros [= _ Hl]. apply (f_equal length) in Hl.
  rewrite length_app in Hl. simpl in Hl. lia.
Qed.

(** The two guards of [main]. *)
Lemma run_guards (e : Env) (file : option State) (allowed : bool) (d : string) (h : Z) :
  schedule_allows_sending (config e) (clock e) = Ok (allowed, d, h) ->
  run e file
  = if negb allowed && negb (FORCE_SEND (config e)) then
      skipped file (schedule_skip_line e h)
    else if bool_decide (h ∈ hours_recorded file d) && negb (FORCE_SEND (config e)) then
      skipped file (duplicate_skip_line d h)
    else send_run e file d h.
Proof.
  intros Hs. unfold run, main, mbind, M_bind, bind, lift. rewrite Hs.
  unfold load_state. cbn [state_file].
  fold (sent_hours_of file). fold (hours_recorded file d).
  destruct (negb allowed && negb (FORCE_SEND (config e))); [reflexivity|].
  destruct (bool_decide (h ∈ hours_recorded file d) && negb (FORCE_SEND (config e)));
    reflexivity.
Qed.

Lemma run_schedule_raises (e : Env) (file : option State) (x : exn) :
  schedule_allows_sending (config e) (clock e) = Raise x ->
  run e file = (Raise x, {| state_file := file; log := [] |}).
Proof.
  intros Hs. unfold run, main, mbind, M_bind, bind, lift. rewrite Hs. reflexivity.
Qed.

Lemma run_permitted (e : Env) (file : option State) (d : string) (h : Z) :
  permitted e file d h -> run e file = send_run e file d h.
Proof.
  intros (allowed & Hs & Hg). rewrite (run_guards e file allowed d h Hs).
  destruct Hg as [->|[-> Hh]].
  - rewrite !andb_false_r. reflexivity.
  - rewrite (bool_decide_eq_false_2 _ Hh). reflexivity.
Qed.

(** What [allowed] is when the guard returns. *)
Lemma schedule_allowed (cfg : Config) (clk : Clock) (allowed : bool) (d : string) (h : Z) :
  schedule_allows_sending cfg clk = Ok (allowed, d, h) ->
  allowed = FORCE_SEND cfg || blank (TARGET_HOURS cfg)
            || bool_decide (h ∈ parse_target_hours (TARGET_HOURS cfg)).
Proof.
  unfold schedule_allows_sending. fold (blank (TARGET_HOURS cfg)).
  destruct (FORCE_SEND cfg || blank (TARGET_HOURS cfg)).
  - intros [= <- _ _]. reflexivity.
  - destruct (zone_now clk); intros [= <- _ <-]; reflexivity.
Qed.

(** The decision of [main] in closed form. *)
Lemma run_decision (e : Env) (file : option State) (allowed : bool) (d : string) (h : Z) :
  schedule_allows_sending (config e) (clock e) = Ok (allowed, d, h) ->
  let cfg := config e in
  let go := FORCE_SEND cfg
            || ((blank (TARGET_HOURS cfg)
                 || bool_decide (h ∈ parse_target_hours (TARGET_HOURS cfg)))
                && negb (bool_decide (h ∈ hours_recorded file d))) in
  (go = true -> run e file = send_run e file d h)
  /\ (go = false -> exists line, run e file = skipped file line).
Proof.
  intros Hs cfg go. subst go cfg.
  rewrite (run_guards e file allowed d h Hs).
  rewrite (schedule_allowed _ _ _ _ _ Hs).
  destruct (FORCE_SEND (config e)), (blank (TARGET_HOURS (config e))),
    (bool_decide (h ∈ parse_target_hours (TARGET_HOURS (config e)))),
    (bool_decide (h ∈ hours_recorded file d)); cbn;
    split; intros; try discriminate; eauto.
Qed.

(** The state file after a run that passed the guards: untouched, or the
    picked state with the hour added under the date. *)
Lemma main_send_file (e : Env) (d : string) (h : Z) (st : State)
    (m : gmap string (list Z)) (ht : gset Z) (w : World) :
  let out := main_send e d h st m ht w in
  (out.1 <> Ok tt /\ state_file out.2 = state_file w)
  \/ (out.1 = Ok tt
      /\ exists picked, state_file out.2 = Some (saved_state picked m d h ht)).
Proof.
  cbn zeta.
  set (today := c_date (local_now (clock e))).
  set (vocab := load_vocab (csv_rows e)).
  destruct (Z.lt_ge_cases (Z.of_nat (length vocab)) (N_WORDS (config e))) as [Hn|Hn].
  { left. rewrite (main_send_too_small e d h st m ht w Hn). split; [discriminate|reflexivity]. }
  destruct (pick_words (rnd e) today vocab st (N_WORDS (config e)))
    as [[words picked]|x] eqn:Hp.
  2:{ left. rewrite (main_send_pick_raises e d h st m ht w x Hn Hp).
      split; [discriminate|reflexivity]. }
  destruct (format_message today words) as [text|x] eqn:Hf.
  2:{ left. rewrite (main_send_format_raises e d h st m ht w words picked x Hn Hp Hf).
      split; [discriminate|reflexivity]. }
  rewrite (main_send_delivers e d h st m ht w words picked text Hn Hp Hf).
  destruct (telegram_raises (backends e)); [left; split; [discriminate|reflexivity]|].
  destruct (twilio_raises (backends e)); [left; split; [discriminate|reflexivity]|].
  right. split; [reflexivity|]. exists picked. reflexivity.
Qed.

Lemma sent_hours_of_saved (picked : State) (m : gmap string (list Z)) (d : string)
    (h : Z) (ht : gset Z) :
  sent_hours_of (Some (saved_state picked m d h ht))
  = <[d := sorted_list ({[h]} ∪ ht)]> m.
Proof. reflexivity. Qed.

(** ** The send guard *)

(** C1. The guard lets a run through exactly when it is forced, or the
    schedule gate is satisfied (no target hours configured, or the hour is
    one of them) and the hour is not yet recorded for the date; a run that
    is not let through prints one line and does nothing else. The first
    part states this for every configuration string, the second for the
    configuration string of every list of target hours, against the
    decision [should_send] of the specification; the five remaining parts
    are the rows of the literal truth table. *)
Theorem send_guard_decision :
  (forall e file allowed d h,
      schedule_allows_sending (config e) (clock e) = Ok (allowed, d, h) ->
      let go := FORCE_SEND (config e)
                || ((blank (TARGET_HOURS (config e))
                     || bool_decide (h ∈ parse_target_hours (TARGET_HOURS (config e))))
                    && negb (bool_decide (h ∈ hours_recorded file d))) in
      (run e file = send_run e file d h <-> go = true)
      /\ (go = false -> exists line, run e file = skipped file line))
  /\ (forall e file targetHours allowed d h,
      TARGET_HOURS (config e) = target_hours_config targetHours ->
      schedule_allows_sending (config e) (clock e) = Ok (allowed, d, h) ->
      let go := should_send h targetHours (hours_recorded file d)
                  (FORCE_SEND (config e)) in
      (run e file = send_run e file d h <-> go = true)
      /\ (go = false -> exists line, run e file = skipped file line))
  /\ run (row_env "9,15,21" 15 false) (row_file [])
     = send_run (row_env "9,15,21" 15 false) (row_file []) "2024-01-01" 15
  /\ run (row_env "9,15,21" 15 false) (row_file [15%Z])
     = skipped (row_file [15%Z])
         "Already sent for 2024-01-01 at hour 15. Skipping duplicate."
  /\ (forall hour,
      run (row_env "" hour false) (row_file [])
      = send_run (row_env "" hour false) (row_file []) "2024-01-01" hour)
  /\ run (row_env "9" 10 false) (row_file [])
     = skipped (row_file [])
         "Schedule guard: not a target hour (10) in Europe/Berlin. Skipping send."
  /\ run (row_env "9" 10 true) (row_file [])
     = send_run (row_env "9" 10 true) (row_file []) "2024-01-01" 10.
Proof.
  assert (General : forall e file allowed d h,
      schedule_allows_sending (config e) (clock e) = Ok (allowed, d, h) ->
      let go := FORCE_SEND (config e)
                || ((blank (TARGET_HOURS (config e))
                     || bool_decide (h ∈ parse_target_hours (TARGET_HOURS (config e))))
                    && negb (bool_decide (h ∈ hours_recorded file d))) in
      (run e file = send_run e file d h <-> go = true)
      /\ (go = false -> exists line, run e file = skipped file line)).
  { intros e file allowed d h Hs go.
    destruct (run_decision e file allowed d h Hs) as [Hgo Hstop]. fold go in Hgo, Hstop.
    split; [split; [|exact Hgo]|exact Hstop].
    intros Hrun. destruct go; [reflexivity|].
    destruct (Hstop eq_refl) as [line Hline]. rewrite Hline in Hrun.
    symmetry in Hrun. apply send_run_not_skipped in Hrun. destruct Hrun. }
  split; [exact General|]. split.
  { intros e file ts allowed d h Hcfg Hs.
    pose proof (General e file allowed d h Hs) as HG. cbn zeta in HG.
    rewrite Hcfg, blank_target_hours_config, parse_target_hours_config in HG.
    exact HG. }
  split.
  { rewrite (run_guards (row_env "9,15,21" 15 false) (row_file [])
               true "2024-01-01" 15 eq_refl). reflexivity. }
  split.
  { rewrite (run_guards (row_env "9,15,21" 15 false) (row_file [15%Z])
               true "2024-01-01" 15 eq_refl). reflexivity. }
  split.
  { intros hour.
    rewrite (run_guards (row_env "" hour false) (row_file [])
               true "2024-01-01" hour eq_refl). reflexivity. }
  split.
  { rewrite (run_guards (row_env "9" 10 false) (row_file [])
               false "2024-01-01" 10 eq_refl). reflexivity. }
  rewrite (run_guards (row_env "9" 10 true) (row_file [])
             true "2024-01-01" 10 eq_refl). reflexivity.
Qed.

Lemma send_guard_decision_witness :
  TARGET_HOURS (config (row_env "9,15,21" 15 false)) = target_hours_config [9; 15; 21]%Z
  /\ schedule_allows_sending (config (row_env "9,15,21" 15 false))
       (clock (row_env "9,15,21" 15 false)) = Ok (true, "2024-01-01", 15%Z)
  /\ (run (row_env "9,15,21" 15 false) (row_file [15%Z])
      = send_run (row_env "9,15,21" 15 false) (row_file [15%Z]) "2024-01-01" 15
      <-> should_send 15 [9; 15; 21]%Z
            (hours_recorded (row_file [15%Z]) "2024-01-01") false = true).
Proof.
  split; [reflexivity|]. split; [reflexivity|].
  exact (proj1 (proj1 (proj2 send_guard_decision)
                  (row_env "9,15,21" 15 false) (row_file [15%Z])
                  [9; 15; 21]%Z true "2024-01-01" 15%Z eq_refl eq_refl)).
Defined.

(** ** Tokens that are not integers *)

Section Tokens.
Import PyStr.

Lemma lstrip_empty (s : string) : lstrip_by isspace s = "" -> all_space s = true.
Proof.
  induction s as [|c s IH]; simpl; [reflexivity|].
  destruct (isspace c); [exact IH|discriminate].
Qed.

Lemma lstrip_head (s : string) :
  lstrip_by isspace s = ""
  \/ exists c r, lstrip_by isspace s = String c r /\ isspace c = false.
Proof.
  induction s as [|c s IH]; simpl; [left; reflexivity|].
  destruct (isspace c) eqn:Hc; [exact IH|right; eauto].
Qed.

Lemma strip_empty (s : string) : strip s = "" -> all_space s = true.
Proof.
  unfold strip. intros H. apply lstrip_empty.
  destruct (lstrip_head s) as [E|(c & r & E & Hc)]; [exact E|].
  rewrite E in H. simpl in H.
  destruct (rstrip_by isspace r); [rewrite Hc in H|]; discriminate.
Qed.

Lemma split_all_space (s : string) : all_space s = true -> split "," s = [s].
Proof.
  induction s as [|c s IH]; simpl; [reflexivity|].
  intros [Hc Hs]%andb_prop. rewrite (IH Hs).
  destruct (Ascii.eqb_spec c ","); [subst; discriminate|reflexivity].
Qed.

(** A token that is not blank makes the whole string not blank. *)
Lemma token_not_blank (s tok : string) :
  tok ∈ split "," s -> truthy (strip tok) = true -> blank s = false.
Proof.
  intros Hin Htok. unfold blank. destruct (strip s) eqn:E; [|reflexivity].
  rewrite (split_all_space s (strip_empty s E)) in Hin.
  apply list_elem_of_singleton in Hin. subst tok. rewrite E in Htok. discriminate.
Qed.

(** One token that [int] rejects empties the list of targets. *)
Lemma invalid_token_empties (s tok : string) :
  tok ∈ split "," s -> truthy (strip tok) = true -> int (strip tok) = None ->
  parse_target_hours s = [].
Proof.
  intros Hin Htok Hint. unfold parse_target_hours.
  destruct (mapM _ _) as [targets|] eqn:E; [|reflexivity].
  assert (Hs : is_Some (mapM (fun h => int (strip h))
                 (List.filter (fun h => truthy (strip h)) (split "," s)))) by eauto.
  apply mapM_is_Some in Hs. rewrite Forall_forall in Hs.
  specialize (Hs tok). cbn in Hs. rewrite Hint in Hs.
  destruct Hs as [? Hs]; [|discriminate].
  apply list_elem_of_In, filter_In. split; [apply list_elem_of_In, Hin|exact Htok].
Qed.

End Tokens.

(** C9. When the configured target hours hold a token (a piece between
    commas that is not blank, which is what the script hands to [int]) that
    is not a valid integer, and sending is not forced: the configuration is
    not blank, the parsed target list is empty, the schedule gate is closed
    whatever the clocks show, and the run stops at the schedule guard. A
    blank configuration, in contrast, opens the gate whatever the clocks
    show. *)
Theorem invalid_token_blocks_every_hour :
  forall cfg tok,
    FORCE_SEND cfg = false ->
    tok ∈ PyStr.split "," (TARGET_HOURS cfg) ->
    PyStr.truthy (PyStr.strip tok) = true ->
    PyStr.int (PyStr.strip tok) = None ->
    blank (TARGET_HOURS cfg) = false
    /\ parse_target_hours (TARGET_HOURS cfg) = []
    /\ (forall clk, zone_now clk <> ZoneNotFound ->
          exists d h, schedule_allows_sending cfg clk = Ok (false, d, h))
    /\ (forall clk allowed d h,
          schedule_allows_sending cfg clk = Ok (allowed, d, h) -> allowed = false)
    /\ (forall e file, config e = cfg -> zone_now (clock e) <> ZoneNotFound ->
          exists h, run e file = skipped file (schedule_skip_line e h))
    /\ (forall cfg' clk, FORCE_SEND cfg' = false -> blank (TARGET_HOURS cfg') = true ->
          exists d h, schedule_allows_sending cfg' clk = Ok (true, d, h)).
Proof.
  intros cfg tok Hforce Hin Htok Hint.
  pose proof (token_not_blank _ _ Hin Htok) as Hb.
  pose proof (invalid_token_empties _ _ Hin Htok Hint) as Hp.
  assert (Hclosed : forall clk allowed d h,
             schedule_allows_sending cfg clk = Ok (allowed, d, h) -> allowed = false).
  { intros clk allowed d h Hs. rewrite (schedule_allowed _ _ _ _ _ Hs).
    rewrite Hforce, Hb, Hp. reflexivity. }
  assert (Hret : forall clk, zone_now clk <> ZoneNotFound ->
             exists d h, schedule_allows_sending cfg clk = Ok (false, d, h)).
  { intros clk Hz. unfold schedule_allows_sending.
    fold (blank (TARGET_HOURS cfg)). rewrite Hforce, Hb, Hp. cbn.
    destruct (zone_now clk); [eauto|congruence|eauto]. }
  split; [exact Hb|]. split; [exact Hp|]. split; [exact Hret|].
  split; [exact Hclosed|]. split.
  - intros e file <- Hz. destruct (Hret (clock e) Hz) as (d & h & Hs).
    exists h. rewrite (run_guards e file false d h Hs), Hforce. reflexivity.
  - intros cfg' clk Hf' Hb'. unfold schedule_allows_sending.
    fold (blank (TARGET_HOURS cfg')). rewrite Hf', Hb'. cbn. eauto.
Qed.

Lemma invalid_token_blocks_every_hour_witness :
  parse_target_hours "9,abc" = []
  /\ exists h, run (row_env "9,abc" 9 false) (row_file [])
               = skipped (row_file []) (schedule_skip_line (row_env "9,abc" 9 false) h).
Proof.
  pose proof (invalid_token_blocks_every_hour
                (config (row_env "9,abc" 9 false)) "abc" eq_refl) as H.
  destruct H as (_ & Hp & _ & _ & Hrun & _).
  - vm_compute. apply list_elem_of_In. simpl. right. left. reflexivity.
  - reflexivity.
  - reflexivity.
  - split; [exact Hp|]. apply Hrun; [reflexivity|discriminate].
Defined.

(** ** Which clock keys the record *)

(** C10. When sending is forced or the target-hours configuration is
    blank, the guard returns the hour of the UTC clock with the system-local
    date, whatever the clock of the configured zone shows (even when the
    zone cannot be found); the duplicate check of the run reads the record
    under that pair and a run that saves writes the hour under that date.
    Only for a configuration that is not blank and not forced does the
    guard read the clock of the configured zone. *)
Theorem forced_or_blank_uses_utc_hour_and_local_date :
  (forall cfg utc_hour local zone,
      FORCE_SEND cfg = true \/ blank (TARGET_HOURS cfg) = true ->
      schedule_allows_sending cfg
        {| utcnow_hour := utc_hour; local_now := local; zone_now := zone |}
      = Ok (true, c_date local, utc_hour))
  /\ (forall e file,
      FORCE_SEND (config e) = true \/ blank (TARGET_HOURS (config e)) = true ->
      let d := c_date (local_now (clock e)) in
      let h := utcnow_hour (clock e) in
      run e file
      = (if bool_decide (h ∈ hours_recorded file d) && negb (FORCE_SEND (config e))
         then skipped file (duplicate_skip_line d h)
         else send_run e file d h)
      /\ ((run e file).1 = Ok tt -> state_saved (log (run e file).2) ->
          sent_hours_of (state_file (run e file).2) !! d
          = Some (sorted_list ({[h]} ∪ hours_recorded file d))))
  /\ (forall cfg clk,
      FORCE_SEND cfg = false -> blank (TARGET_HOURS cfg) = false ->
      schedule_allows_sending cfg clk
      = match zone_now clk with
        | ZoneNow t =>
            Ok (bool_decide (c_hour t ∈ parse_target_hours (TARGET_HOURS cfg)),
                c_date t, c_hour t)
        | ZoneInfoMissing =>
            Ok (bool_decide (c_hour (local_now clk)
                             ∈ parse_target_hours (TARGET_HOURS cfg)),
                c_date (local_now clk), c_hour (local_now clk))
        | ZoneNotFound => Raise ZoneInfoNotFoundError
        end).
Proof.
  assert (Hguard : forall cfg clk,
      FORCE_SEND cfg = true \/ blank (TARGET_HOURS cfg) = true ->
      schedule_allows_sending cfg clk
      = Ok (true, c_date (local_now clk), utcnow_hour clk)).
  { intros cfg clk Hfb. unfold schedule_allows_sending.
    fold (blank (TARGET_HOURS cfg)).
    destruct Hfb as [-> | ->]; rewrite ?orb_true_r; reflexivity. }
  split; [intros cfg u l z Hfb; apply (Hguard cfg (mkClock u l z) Hfb)|]. split.
  - intros e file Hfb d h.
    pose proof (run_guards e file true d h (Hguard _ _ Hfb)) as Hrun.
    cbn [negb andb] in Hrun. split; [exact Hrun|].
    rewrite Hrun.
    destruct (bool_decide (h ∈ hours_recorded file d) && negb (FORCE_SEND (config e))).
    + intros _ (st & Hst). cbn in Hst.
      apply list_elem_of_singleton in Hst. discriminate.
    + intros Hok _. unfold send_run in *.
      destruct (main_send_file e d h (default fresh_state file) (sent_hours_of file)
                  (hours_recorded file d) {| state_file := file; log := [] |})
        as [[Hne _]|[_ [picked ->]]]; [contradiction|].
      rewrite sent_hours_of_saved. apply lookup_insert_eq.
  - intros cfg clk Hf Hb. unfold schedule_allows_sending.
    fold (blank (TARGET_HOURS cfg)). rewrite Hf, Hb. cbn.
    destruct (zone_now clk); reflexivity.
Qed.

Lemma forced_or_blank_uses_utc_hour_and_local_date_witness :
  schedule_allows_sending
    {| N_WORDS := 3; TZ := "Europe/Berlin"; TARGET_HOURS := "9,15,21";
       FORCE_SEND := true |}
    {| utcnow_hour := 23; local_now := {| c_date := "2024-01-01"; c_hour := 18 |};
       zone_now := ZoneNow {| c_date := "2024-01-02"; c_hour := 0 |} |}
  = Ok (true, "2024-01-01", 23%Z).
Proof.
  apply (proj1 forced_or_blank_uses_utc_hour_and_local_date).
  left. reflexivity.
Defined.

(** ** Sampling without replacement *)

Section Sampling.
Context {A : Type}.
Implicit Types pool chosen : list A.

Lemma pool_step (pool : list A) (m j : nat) (x y : A) :
  (j < S m)%nat ->
  pool !! j = Some x -> pool !! m = Some y ->
  x :: take m (<[j := y]> pool) ≡ₚ take (S m) pool.
Proof.
  intros Hj Hx Hy. rewrite (take_S_r pool m y Hy).
  destruct (decide (j = m)) as [->|Hne].
  - assert (x = y) as -> by congruence.
    rewrite (list_insert_id pool m y Hy). apply Permutation_cons_append.
  - assert (Hlt : (j < m)%nat) by lia.
    rewrite (take_insert_lt pool m j y Hlt).
    assert (Hl : take m pool !! j = Some x) by (rewrite lookup_take_lt; auto).
    pose proof (lookup_lt_Some _ _ _ Hl) as Hlen.
    rewrite (insert_take_drop (take m pool) j y Hlen).
    rewrite <- (take_drop_middle (take m pool) j x Hl) at 3.
    generalize (take j (take m pool)) (drop (S j) (take m pool)).
    intros a b. solve_Permutation.
Qed.

(** The pool loop returns [k] elements which, together with what is left
    of the live part of the pool, are a rearrangement of that part. *)
Lemma sample_pool_spec (rnd : nat -> nat) (k : nat) :
  forall (i m : nat) (pool : list A),
    (k <= m)%nat -> (m <= length pool)%nat ->
    exists chosen rest,
      sample_pool rnd i k m pool = Some chosen
      /\ length chosen = k
      /\ (chosen ++ rest)%list ≡ₚ take m pool.
Proof.
  induction k as [|k IH]; intros i m pool Hk Hm.
  - exists [], (take m pool). auto.
  - destruct m as [|m]; [lia|]. cbn [sample_pool].
    replace (S m - 1)%nat with m by lia.
    assert (Hj : (rnd i mod S m < S m)%nat) by (apply Nat.mod_upper_bound; lia).
    destruct (lookup_lt_is_Some_2 pool (rnd i mod S m)) as [x Hx]; [lia|].
    destruct (lookup_lt_is_Some_2 pool m) as [y Hy]; [lia|].
    destruct (IH (S i) m (<[rnd i mod S m := y]> pool))
      as (chosen & rest & Hrec & Hlen & Hperm);
      [lia|rewrite length_insert; lia|].
    rewrite Hx. cbn [mbind option_bind]. rewrite Hy. cbn [mbind option_bind].
    rewrite Hrec. cbn [mbind option_bind].
    exists (x :: chosen), rest. split; [reflexivity|]. split; [cbn; lia|]. cbn [app].
    rewrite Hperm. apply (pool_step pool m _ x y Hj Hx Hy).
Qed.

Lemma random_sample_ok (rnd : nat -> nat) (population : list A) (k : Z) :
  (0 <= k <= Z.of_nat (length population))%Z ->
  exists chosen rest,
    random_sample rnd population k = Ok chosen
    /\ length chosen = Z.to_nat k
    /\ (chosen ++ rest)%list ≡ₚ population.
Proof.
  intros Hk. unfold random_sample.
  rewrite (proj2 (Z.ltb_ge _ _)), (proj2 (Z.ltb_ge _ _)) by lia. cbn.
  destruct (sample_pool_spec rnd (Z.to_nat k) 0 (length population) population)
    as (chosen & rest & -> & Hlen & Hperm); [lia|lia|].
  rewrite firstn_all in Hperm. eauto.
Qed.

Lemma random_sample_raises (rnd : nat -> nat) (population : list A) (k : Z) :
  (k < 0 \/ Z.of_nat (length population) < k)%Z ->
  random_sample rnd population k = Raise ValueError.
Proof.
  intros Hk. unfold random_sample.
  destruct Hk as [Hk|Hk].
  - rewrite (proj2 (Z.ltb_lt _ _) Hk). reflexivity.
  - rewrite (proj2 (Z.ltb_lt _ _) Hk), orb_true_r. reflexivity.
Qed.

End Sampling.

(** ** Available indices and the sorted used list *)

Lemma available_spec (total : nat) (used_set : gset Z) (i : nat) :
  i ∈ available total used_set <-> (i < total)%nat /\ Z.of_nat i ∉ used_set.
Proof.
  unfold available. rewrite list_elem_of_filter, elem_of_seq. intuition lia.
Qed.

Lemma available_NoDup (total : nat) (used_set : gset Z) :
  NoDup (available total used_set).
Proof. unfold available. apply NoDup_filter, NoDup_seq. Qed.

Lemma available_length (total : nat) (used_set : gset Z) :
  (length (available total used_set) <= total)%nat.
Proof.
  unfold available. etransitivity; [apply length_filter|].
  rewrite length_seq. reflexivity.
Qed.

Lemma sorted_list_set (s : gset Z) : list_to_set (sorted_list s) = s.
Proof.
  unfold sorted_list. apply set_eq. intros x.
  rewrite elem_of_list_to_set, merge_sort_Permutation. apply elem_of_elements.
Qed.

Lemma sorted_list_length (s : gset Z) : length (sorted_list s) = size s.
Proof. unfold sorted_list. rewrite merge_sort_Permutation. reflexivity. Qed.

Lemma sorted_list_NoDup (s : gset Z) : NoDup (sorted_list s).
Proof. unfold sorted_list. rewrite merge_sort_Permutation. apply NoDup_elements. Qed.

Lemma sorted_list_sorted (s : gset Z) : Sorted Z.le (sorted_list s).
Proof. unfold sorted_list. apply (Sorted_merge_sort Z.le). Qed.

Lemma chosen_size (chosen : list nat) :
  NoDup chosen -> size (list_to_set (Z.of_nat <$> chosen) : gset Z) = length chosen.
Proof.
  intros Hnd. rewrite size_list_to_set, length_fmap; [reflexivity|].
  apply NoDup_fmap_2; [apply Nat2Z.inj'|exact Hnd].
Qed.

Lemma chosen_rows (vocab : list VocabRow) (chosen : list nat) :
  (forall i, i ∈ chosen -> (i < length vocab)%nat) ->
  exists words,
    mapM (fun i => vocab !! i) chosen = Some words
    /\ Forall2 (fun i w => vocab !! i = Some w) chosen words.
Proof.
  intros Hin.
  destruct (mapM_is_Some_2 (fun i => vocab !! i) chosen) as [words Hw].
  - apply Forall_forall. intros i Hi. apply lookup_lt_is_Some_2, Hin, Hi.
  - exists words. split; [exact Hw|]. apply mapM_Some, Hw.
Qed.

(** ** The selector: [pick_words] *)

Section PickWords.
Context (rnd : nat -> nat) (today : string) (vocab : list VocabRow)
        (st : State) (n : Z).

Let total := length vocab.
Let used_set : gset Z := list_to_set (default [] (used st)).
Let reset : bool := (Z.of_nat (length (available total used_set)) <? n)%Z.
Let pool : list nat := if reset then seq 0 total else available total used_set.
Let base : gset Z := if reset then ∅ else used_set.

Lemma pool_NoDup : NoDup pool.
Proof. unfold pool. destruct reset; [apply NoDup_seq|apply available_NoDup]. Qed.

Lemma pool_bound (i : nat) : i ∈ pool -> (i < total)%nat.
Proof.
  unfold pool. destruct reset.
  - rewrite elem_of_seq. lia.
  - rewrite available_spec. tauto.
Qed.

Lemma pool_length : (n <= Z.of_nat total)%Z -> (n <= Z.of_nat (length pool))%Z.
Proof.
  intros Hn. unfold pool. destruct reset eqn:E.
  - rewrite length_seq. exact Hn.
  - apply Z.ltb_ge, E.
Qed.

Lemma pick_words_unfold :
  pick_words rnd today vocab st n
  = match random_sample rnd pool n with
    | Raise x => Raise x
    | Ok chosen =>
        match mapM (fun i => vocab !! i) chosen with
        | Some words =>
            Ok (words,
                {| used := Some (sorted_list (base ∪ list_to_set (Z.of_nat <$> chosen)));
                   last_sent := Some (Some today);
                   sent_hours := sent_hours st |})
        | None => Raise IndexError
        end
    end.
Proof.
  unfold pick_words, pool, base, reset, used_set, total.
  destruct (_ <? n)%Z; reflexivity.
Qed.

Lemma pick_words_ok :
  (0 <= n <= Z.of_nat total)%Z ->
  exists chosen words,
    random_sample rnd pool n = Ok chosen
    /\ length chosen = Z.to_nat n
    /\ NoDup chosen
    /\ (forall i, i ∈ chosen -> i ∈ pool)
    /\ Forall2 (fun i w => vocab !! i = Some w) chosen words
    /\ pick_words rnd today vocab st n
       = Ok (words,
             {| used := Some (sorted_list (base ∪ list_to_set (Z.of_nat <$> chosen)));
                last_sent := Some (Some today);
                sent_hours := sent_hours st |}).
Proof.
  intros [Hn0 Hn].
  destruct (random_sample_ok rnd pool n) as (chosen & rest & Hs & Hlen & Hperm);
    [split; [exact Hn0|apply pool_length, Hn]|].
  assert (Hin : forall i, i ∈ chosen -> i ∈ pool).
  { intros i Hi. rewrite <- Hperm. apply elem_of_app. left. exact Hi. }
  assert (Hnd : NoDup chosen).
  { pose proof pool_NoDup as Hp. rewrite <- Hperm in Hp.
    apply NoDup_app in Hp. tauto. }
  destruct (chosen_rows vocab chosen) as (words & Hm & Hw).
  { intros i Hi. apply pool_bound, Hin, Hi. }
  exists chosen, words. rewrite pick_words_unfold, Hs, Hm. auto 10.
Qed.

Lemma pick_words_raises :
  (n < 0 \/ Z.of_nat total < n)%Z ->
  pick_words rnd today vocab st n = Raise ValueError.
Proof.
  intros Hn. rewrite pick_words_unfold, random_sample_raises; [reflexivity|].
  destruct Hn as [Hn|Hn]; [left; exact Hn|right].
  unfold pool. replace reset with true.
  - rewrite length_seq. exact Hn.
  - symmetry. apply Z.ltb_lt. pose proof (available_length total used_set). lia.
Qed.

Lemma pick_words_frame (words : list VocabRow) (st' : State) :
  pick_words rnd today vocab st n = Ok (words, st') ->
  sent_hours st' = sent_hours st
  /\ last_sent st' = Some (Some today)
  /\ exists chosen, used st' = Some (sorted_list (base ∪ list_to_set (Z.of_nat <$> chosen))).
Proof.
  rewrite pick_words_unfold.
  destruct (random_sample rnd pool n) as [chosen|]; [|discriminate].
  destruct (mapM _ chosen); [|discriminate].
  intros [= _ <-]. cbn. eauto.
Qed.

End PickWords.

(** C2. With [0 <= n <= |vocab|] the selector returns; when fewer than
    [n] indices are available the draw is made from all indices and the
    new used list holds the drawn indices only (the old used set is
    dropped). The selector raises only when the list is shorter than [n],
    and then it does raise. *)
Theorem selector_resets_instead_of_failing :
  (forall rnd today vocab st n,
      (0 <= n <= Z.of_nat (length vocab))%Z ->
      let used_set : gset Z := list_to_set (default [] (used st)) in
      exists chosen words st',
        pick_words rnd today vocab st n = Ok (words, st')
        /\ ((Z.of_nat (length (available (length vocab) used_set)) < n)%Z ->
            random_sample rnd (seq 0 (length vocab)) n = Ok chosen
            /\ used st' = Some (sorted_list (list_to_set (Z.of_nat <$> chosen)))))
  /\ (forall rnd today vocab st n x,
      (0 <= n)%Z ->
      pick_words rnd today vocab st n = Raise x ->
      (Z.of_nat (length vocab) < n)%Z)
  /\ (forall rnd today vocab st n,
      (Z.of_nat (length vocab) < n)%Z ->
      pick_words rnd today vocab st n = Raise ValueError).
Proof.
  split; [|split].
  - intros rnd today vocab st n Hn used_set.
    destruct (pick_words_ok rnd today vocab st n Hn)
      as (chosen & words & Hs & _ & _ & _ & _ & Hp).
    exists chosen, words. eexists. split; [exact Hp|].
    intros Hreset. apply Z.ltb_lt in Hreset. fold used_set in Hs.
    cbn [used]. fold used_set. rewrite Hreset in Hs |- *.
    rewrite (left_id_L ∅ (∪)). auto.
  - intros rnd today vocab st n x Hn0 Hraise.
    destruct (Z.lt_ge_cases (Z.of_nat (length vocab)) n) as [Hlt|Hge]; [exact Hlt|].
    destruct (pick_words_ok rnd today vocab st n (conj Hn0 Hge))
      as (chosen & words & _ & _ & _ & _ & _ & Hp).
    rewrite Hp in Hraise. discriminate.
  - intros rnd today vocab st n Hn. apply pick_words_raises. right. exact Hn.
Qed.

Lemma selector_resets_instead_of_failing_witness :
  exists chosen words st',
    pick_words (fun i => i) "2024-01-01" sample_vocab
      {| used := Some [0; 1; 3]%Z; last_sent := Some None; sent_hours := None |} 2
    = Ok (words, st')
    /\ random_sample (fun i => i) (seq 0 (length sample_vocab)) 2 = Ok chosen
    /\ used st' = Some (sorted_list (list_to_set (Z.of_nat <$> chosen))).
Proof.
  destruct (proj1 selector_resets_instead_of_failing
              (fun i => i) "2024-01-01" sample_vocab
              {| used := Some [0; 1; 3]%Z; last_sent := Some None;
                 sent_hours := None |} 2%Z)
    as (chosen & words & st' & Hp & Hreset).
  - cbn. lia.
  - exists chosen, words, st'. split; [exact Hp|].
    apply Hreset. vm_compute. reflexivity.
Defined.

(** C3. With [0 <= n <= |vocab|] the selector returns exactly [n] rows:
    the rows at [n] distinct indices, in the order in which
    [random.sample] drew them. The new used list is sorted and without
    repetition; as a set it is the used set the draw started from joined
    with the drawn indices. Without a reset that is the old used set, and
    the size is [|used| + n]; after a reset it is empty, and the size is
    [n]. *)
Theorem selector_returns_n_rows :
  forall rnd today vocab st n,
    (0 <= n <= Z.of_nat (length vocab))%Z ->
    let used_set : gset Z := list_to_set (default [] (used st)) in
    let avail := available (length vocab) used_set in
    exists chosen words used',
      pick_words rnd today vocab st n
      = Ok (words, {| used := Some used'; last_sent := Some (Some today);
                      sent_hours := sent_hours st |})
      /\ Z.of_nat (length words) = n
      /\ Z.of_nat (length chosen) = n
      /\ NoDup chosen
      /\ Forall2 (fun i w => vocab !! i = Some w) chosen words
      /\ NoDup used' /\ Sorted Z.le used'
      /\ ((n <= Z.of_nat (length avail))%Z ->
          random_sample rnd avail n = Ok chosen
          /\ list_to_set used' = used_set ∪ list_to_set (Z.of_nat <$> chosen)
          /\ Z.of_nat (length used') = (Z.of_nat (size used_set) + n)%Z)
      /\ ((Z.of_nat (length avail) < n)%Z ->
          random_sample rnd (seq 0 (length vocab)) n = Ok chosen
          /\ list_to_set used' = (list_to_set (Z.of_nat <$> chosen) : gset Z)
          /\ Z.of_nat (length used') = n).
Proof.
  intros rnd today vocab st n Hn used_set avail.
  destruct (pick_words_ok rnd today vocab st n Hn)
    as (chosen & words & Hs & Hlen & Hnd & Hin & Hw & Hp).
  fold used_set in Hs, Hin, Hp. fold avail in Hs, Hin, Hp.
  exists chosen, words. eexists. split; [exact Hp|].
  assert (Hlc : Z.of_nat (length chosen) = n) by lia.
  split; [rewrite <- (Forall2_length _ _ _ Hw); exact Hlc|].
  split; [exact Hlc|]. split; [exact Hnd|]. split; [exact Hw|].
  split; [apply sorted_list_NoDup|]. split; [apply sorted_list_sorted|].
  rewrite sorted_list_set, sorted_list_length. split.
  - intros Hge. apply Z.ltb_ge in Hge. rewrite Hge in Hs, Hin |- *.
    split; [exact Hs|]. split; [reflexivity|].
    rewrite size_union, (chosen_size chosen Hnd); [lia|].
    intros z Hz Hc. apply elem_of_list_to_set, list_elem_of_fmap in Hc.
    destruct Hc as (i & -> & Hi). apply Hin, available_spec in Hi. tauto.
  - intros Hlt. apply Z.ltb_lt in Hlt. rewrite Hlt in Hs |- *.
    rewrite (left_id_L ∅ (∪)). split; [exact Hs|]. split; [reflexivity|].
    rewrite (chosen_size chosen Hnd). exact Hlc.
Qed.

Lemma selector_returns_n_rows_witness :
  exists (chosen : list nat) (words : list VocabRow) (used' : list Z),
    pick_words (fun i => 7 * i + 3)%nat "2024-01-01" sample_vocab
      {| used := Some [1]%Z; last_sent := None; sent_hours := None |} 2
    = Ok (words, {| used := Some used'; last_sent := Some (Some "2024-01-01");
                    sent_hours := None |})
    /\ Z.of_nat (length words) = 2%Z
    /\ NoDup chosen
    /\ list_to_set used' = ({[1%Z]} ∪ ∅) ∪ (list_to_set (Z.of_nat <$> chosen) : gset Z)
    /\ Z.of_nat (length used') = (Z.of_nat (size ({[1%Z]} ∪ ∅ : gset Z)) + 2)%Z.
Proof.
  destruct (selector_returns_n_rows (fun i => 7 * i + 3)%nat "2024-01-01" sample_vocab
              {| used := Some [1]%Z; last_sent := None; sent_hours := None |} 2%Z)
    as (chosen & words & used' & Hp & Hw & _ & Hnd & _ & _ & _ & Hkeep & _).
  - cbn. lia.
  - exists chosen, words, used'.
    destruct Hkeep as (_ & Hset & Hsize); [vm_compute; discriminate|].
    auto.
Defined.

(** C6. What the selector changes in the state: the used list and the
    last-sent marker, which it sets to today's date; the sent-hours record
    is left as it was. It does not write the state file: a run whose
    deliveries raise after the selection leaves the file untouched. *)
Theorem selector_updates_used_and_last_sent :
  (forall rnd today vocab st n words st',
      pick_words rnd today vocab st n = Ok (words, st') ->
      sent_hours st' = sent_hours st
      /\ last_sent st' = Some (Some today)
      /\ exists used', used st' = Some used')
  /\ (forall e file d h,
      (send_run e file d h).1 <> Ok tt ->
      state_file (send_run e file d h).2 = file).
Proof.
  split.
  - intros rnd today vocab st n words st' Hp.
    destruct (pick_words_frame rnd today vocab st n words st' Hp)
      as (Hs & Hl & chosen & Hu). eauto.
  - intros e file d h Hne. unfold send_run in *.
    destruct (main_send_file e d h (default fresh_state file) (sent_hours_of file)
                (hours_recorded file d) {| state_file := file; log := [] |})
      as [[_ Hf]|[Hok _]]; [exact Hf|contradiction].
Qed.

Lemma selector_updates_used_and_last_sent_witness :
  pick_words (fun i => i) "2024-01-01" sample_vocab fresh_state 3
  = Ok ([ola; acaso; desde_luego],
        {| used := Some [0; 1; 3]%Z; last_sent := Some (Some "2024-01-01");
           sent_hours := Some ∅ |})
  /\ sent_hours {| used := Some [0; 1; 3]%Z; last_sent := Some (Some "2024-01-01");
                   sent_hours := Some ∅ |}
     = sent_hours fresh_state.
Proof.
  assert (Hp : pick_words (fun i => i) "2024-01-01" sample_vocab fresh_state 3
               = Ok ([ola; acaso; desde_luego],
                     {| used := Some [0; 1; 3]%Z;
                        last_sent := Some (Some "2024-01-01");
                        sent_hours := Some ∅ |}))
    by (vm_compute; reflexivity).
  split; [exact Hp|].
  exact (proj1 (proj1 selector_updates_used_and_last_sent
                  (fun i => i) "2024-01-01" sample_vocab fresh_state 3%Z
                  _ _ Hp)).
Defined.

(** The claim C6 as written fails: here the selector changes the
    last-sent marker of the state. *)
Lemma selector_changes_last_sent :
  exists words st',
    pick_words (fun i => i) "2024-01-01" sample_vocab fresh_state 3 = Ok (words, st')
    /\ last_sent fresh_state = Some None
    /\ last_sent st' = Some (Some "2024-01-01")
    /\ last_sent st' <> last_sent fresh_state.
Proof.
  eexists _, _. split; [vm_compute; reflexivity|].
  split; [reflexivity|]. split; [reflexivity|]. discriminate.
Qed.

(** ** The message of loaded rows *)

Lemma format_entries_ok (words : list VocabRow) :
  Forall (fun w => es w <> Absent) words ->
  forall i, exists lines, format_entries i words = Ok lines.
Proof.
  induction 1 as [|w ws Hw _ IH]; intros i; cbn [format_entries]; [eauto|].
  unfold format_entry. destruct (es w) eqn:E; [congruence|..];
    destruct (IH (i + 1)%Z) as [lines ->]; eauto.
Qed.

Lemma format_message_ok (today : string) (words : list VocabRow) :
  Forall (fun w => es w <> Absent) words ->
  exists text, format_message today words = Ok text.
Proof.
  intros Hw. unfold format_message.
  destruct (format_entries_ok words Hw 1%Z) as [lines ->]. eauto.
Qed.

Lemma load_vocab_es (rows : list VocabRow) :
  Forall (fun w => es w <> Absent) (load_vocab rows).
Proof.
  apply Forall_forall. intros w Hw. unfold load_vocab in Hw.
  apply list_elem_of_In, filter_In in Hw. destruct Hw as [_ Hw].
  intros E. rewrite E in Hw. discriminate.
Qed.

(** With enough rows the run gets as far as the two deliveries. *)
Lemma reaches_delivery (e : Env) (st : State) :
  let today := c_date (local_now (clock e)) in
  let vocab := load_vocab (csv_rows e) in
  (0 <= N_WORDS (config e) <= Z.of_nat (length vocab))%Z ->
  exists words picked text,
    pick_words (rnd e) today vocab st (N_WORDS (config e)) = Ok (words, picked)
    /\ format_message today words = Ok text.
Proof.
  intros today vocab Hn.
  destruct (pick_words_ok (rnd e) today vocab st _ Hn)
    as (chosen & words & _ & _ & _ & _ & Hw & Hp).
  destruct (format_message_ok today words) as [text Hf].
  { apply (Forall2_Forall_r _ _ _ _ Hw), Forall_forall. intros i _ w Hi.
    pose proof (load_vocab_es (csv_rows e)) as Hes. rewrite Forall_forall in Hes.
    apply Hes. apply list_elem_of_lookup. eauto. }
  eauto.
Qed.

(** ** What the logs of the deliveries hold *)

Lemma telegram_events_ran (b : Backends) (text : string) :
  telegram_ran (telegram_events b text).
Proof.
  unfold telegram_ran, telegram_events. destruct (telegram_configured b); cbn.
  - left. exists text. apply list_elem_of_here.
  - right. apply list_elem_of_here.
Qed.

Lemma twilio_events_ran (b : Backends) (text : string) :
  twilio_ran (twilio_events b text).
Proof.
  unfold twilio_ran, twilio_events. destruct (twilio_configured b); cbn.
  - left. exists text. apply list_elem_of_here.
  - right. apply list_elem_of_here.
Qed.

Ltac absent_event :=
  repeat match goal with
    | H : exists _, _ |- _ => destruct H
    | H : _ \/ _ |- _ => destruct H
    | H : @elem_of _ _ _ _ (_ :: _) |- _ => apply elem_of_cons in H
    | H : @elem_of _ _ _ _ [] |- _ => apply elem_of_nil in H; destruct H
    | H : _ = _ |- _ => discriminate H
    end.

Lemma telegram_events_only (b : Backends) (text : string) :
  ~ twilio_ran (telegram_events b text) /\ ~ state_saved (telegram_events b text).
Proof.
  unfold twilio_ran, state_saved, telegram_events.
  destruct (telegram_configured b), (telegram_reply b); cbn; split;
    intros H; absent_event.
Qed.

Lemma twilio_events_no_save (b : Backends) (text : string) :
  ~ state_saved (twilio_events b text).
Proof.
  unfold state_saved, twilio_events.
  destruct (twilio_configured b), (twilio_reply b); cbn;
    intros H; absent_event.
Qed.

Lemma ran_app_l (l k : list event) : telegram_ran l -> telegram_ran (l ++ k).
Proof.
  unfold telegram_ran. intros [[t H]|H]; [left; exists t|right];
    apply elem_of_app; left; exact H.
Qed.

Lemma twilio_ran_app (l k k' : list event) : twilio_ran k -> twilio_ran (l ++ k ++ k').
Proof.
  unfold twilio_ran. intros [[t H]|H]; [left; exists t|right];
    rewrite !elem_of_app; auto.
Qed.

Lemma state_saved_app (l k : list event) :
  state_saved (l ++ k) <-> state_saved l \/ state_saved k.
Proof.
  unfold state_saved. split.
  - intros [st H]. apply elem_of_app in H. destruct H; eauto.
  - intros [[st H]|[st H]]; exists st; apply elem_of_app; auto.
Qed.

(** The run that reaches the deliveries, in closed form. *)
Lemma send_run_delivers (e : Env) (file : option State) (d : string) (h : Z) :
  (0 <= N_WORDS (config e) <= Z.of_nat (length (load_vocab (csv_rows e))))%Z ->
  let b := backends e in
  exists picked text,
    send_run e file d h
    = if telegram_raises b then
        (Raise URLError,
         {| state_file := file; log := telegram_events b text |})
      else if twilio_raises b then
        (Raise URLError,
         {| state_file := file;
            log := telegram_events b text ++ twilio_events b text |})
      else
        (Ok tt,
         {| state_file :=
              Some (saved_state picked (sent_hours_of file) d h (hours_recorded file d));
            log := telegram_events b text ++ twilio_events b text
                   ++ [Saved (saved_state picked (sent_hours_of file) d h
                                (hours_recorded file d));
                       Printed text] |}).
Proof.
  intros Hn b.
  destruct (reaches_delivery e (default fresh_state file) Hn)
    as (words & picked & text & Hp & Hf).
  exists picked, text. unfold send_run.
  rewrite (main_send_delivers e d h _ _ _ _ words picked text (proj2 Hn) Hp Hf).
  fold b. unfold add_events. cbn [log state_file app]. reflexivity.
Qed.

(** ** Delivery failures and the exit status *)

(** C4, as the script has it. In a run that reaches the delivery step the
    first backend (Telegram) is always attempted. If it returns (delivered,
    or skipped because it is not configured) the second backend (Twilio) is
    attempted, and if that returns too the updated state is saved. A
    transport error raised by a backend is not caught: when the first
    backend raises, the second backend is not attempted and the state is
    not saved; when the second raises, the state is not saved. *)
Theorem delivery_failure_stops_the_run :
  forall e file d h,
    permitted e file d h ->
    (0 <= N_WORDS (config e) <= Z.of_nat (length (load_vocab (csv_rows e))))%Z ->
    let b := backends e in
    let out := run e file in
    telegram_ran (log out.2)
    /\ (telegram_raises b = false -> twilio_ran (log out.2))
    /\ (telegram_raises b = false -> twilio_raises b = false ->
        out.1 = Ok tt
        /\ exists st', state_file out.2 = Some st' /\ Saved st' ∈ log out.2)
    /\ (telegram_raises b = true ->
        out.1 = Raise URLError
        /\ ~ twilio_ran (log out.2)
        /\ ~ state_saved (log out.2)
        /\ state_file out.2 = file)
    /\ (telegram_raises b = false -> twilio_raises b = true ->
        out.1 = Raise URLError
        /\ ~ state_saved (log out.2)
        /\ state_file out.2 = file).
Proof.
  intros e file d h Hperm Hn b out. subst out.
  rewrite (run_permitted e file d h Hperm).
  destruct (send_run_delivers e file d h Hn) as (picked & text & ->). fold b.
  pose proof (telegram_events_ran b text) as Htg.
  pose proof (twilio_events_ran b text) as Htw.
  pose proof (telegram_events_only b text) as [Hno_tw Hno_save].
  pose proof (twilio_events_no_save b text) as Hno_save'.
  assert (Htw' : twilio_ran (telegram_events b text ++ twilio_events b text)).
  { pose proof (twilio_ran_app (telegram_events b text) _ [] Htw) as H.
    rewrite app_nil_r in H. exact H. }
  destruct (telegram_raises b) eqn:Etg; [|destruct (twilio_raises b) eqn:Etw];
    cbn [fst snd log state_file].
  - split; [exact Htg|]. split; [discriminate|]. split; [discriminate|].
    split; [auto|discriminate].
  - split; [apply ran_app_l, Htg|]. split; [intros _; exact Htw'|].
    split; [discriminate|]. split; [discriminate|]. intros _ _.
    split; [reflexivity|]. split; [|reflexivity].
    rewrite state_saved_app. tauto.
  - split; [apply ran_app_l, Htg|].
    split; [intros _; apply (twilio_ran_app _ _ _ Htw)|].
    split; [|split; discriminate]. intros _ _.
    split; [reflexivity|]. eexists. split; [reflexivity|].
    rewrite !elem_of_app. right. right. apply list_elem_of_here.
Qed.

Lemma delivery_failure_stops_the_run_witness :
  permitted (row_env "9" 10 true) (row_file []) "2024-01-01" 10
  /\ telegram_ran (log (run (row_env "9" 10 true) (row_file [])).2)
  /\ twilio_ran (log (run (row_env "9" 10 true) (row_file [])).2)
  /\ (run (row_env "9" 10 true) (row_file [])).1 = Ok tt.
Proof.
  assert (Hp : permitted (row_env "9" 10 true) (row_file []) "2024-01-01" 10).
  { exists true. split; [reflexivity|]. left. reflexivity. }
  split; [exact Hp|].
  destruct (delivery_failure_stops_the_run (row_env "9" 10 true) (row_file [])
              "2024-01-01" 10%Z Hp) as (Htg & Htw & Hok & _).
  - cbn. lia.
  - split; [exact Htg|]. split; [exact (Htw eq_refl)|].
    exact (proj1 (Hok eq_refl eq_refl)).
Defined.

(** The claim C4 as written fails: with Telegram raising, the run reaches
    the delivery step, Twilio is never attempted and nothing is saved. *)
Lemma telegram_failure_blocks_twilio_and_save :
  let e := with_backends (row_env "9" 10 true) telegram_down in
  let out := run e (row_file []) in
  (exists text, TelegramPost text ∈ log out.2)
  /\ out.1 = Raise URLError
  /\ ~ twilio_ran (log out.2)
  /\ ~ state_saved (log out.2)
  /\ state_file out.2 = row_file [].
Proof.
  intros e out. subst out.
  assert (Hp : permitted e (row_file []) "2024-01-01" 10).
  { exists true. split; [reflexivity|]. left. reflexivity. }
  rewrite (run_permitted e _ _ _ Hp).
  destruct (send_run_delivers e (row_file []) "2024-01-01" 10) as (picked & text & ->);
    [cbn; lia|].
  change (telegram_raises (backends e)) with true. cbn [fst snd log state_file].
  pose proof (telegram_events_only (backends e) text) as [Hno_tw Hno_save].
  split; [exists text; apply list_elem_of_here|]. auto.
Qed.

(** C5, as the script has it. A run that passed the guards with a
    vocabulary shorter than [N_WORDS] prints one line and exits with status
    1: no backend is attempted and the state file is not written. With
    enough rows, and when neither delivery raises, the run exits with
    status 0 after attempting both deliveries and saving the state. *)
Theorem small_vocabulary_aborts_before_sending :
  forall e file d h,
    permitted e file d h ->
    let n := N_WORDS (config e) in
    let vocab := load_vocab (csv_rows e) in
    let out := run e file in
    ((Z.of_nat (length vocab) < n)%Z ->
     out = (Raise (SystemExit 1),
            {| state_file := file; log := [Printed "Vocab list too small."] |})
     /\ exit_status out.1 = 1%Z
     /\ ~ telegram_ran (log out.2)
     /\ ~ twilio_ran (log out.2)
     /\ ~ state_saved (log out.2)
     /\ state_file out.2 = file)
    /\ ((0 <= n <= Z.of_nat (length vocab))%Z ->
        telegram_raises (backends e) = false ->
        twilio_raises (backends e) = false ->
        exit_status out.1 = 0%Z
        /\ telegram_ran (log out.2)
        /\ twilio_ran (log out.2)
        /\ exists st', state_file out.2 = Some st' /\ Saved st' ∈ log out.2).
Proof.
  intros e file d h Hperm n vocab out. subst out.
  rewrite (run_permitted e file d h Hperm). split.
  - intros Hn. unfold send_run.
    rewrite (main_send_too_small e d h _ _ _ _ Hn). unfold add_events.
    cbn [fst snd log state_file app exit_status].
    split; [reflexivity|]. split; [reflexivity|].
    unfold telegram_ran, twilio_ran, state_saved.
    repeat split; try reflexivity; intros H; absent_event.
  - intros Hn Htg Htw.
    destruct (send_run_delivers e file d h Hn) as (picked & text & ->).
    rewrite Htg, Htw. cbn [fst snd log state_file exit_status].
    split; [reflexivity|].
    split; [apply ran_app_l, telegram_events_ran|].
    split; [apply (twilio_ran_app _ _ _ (twilio_events_ran _ text))|].
    eexists. split; [reflexivity|].
    rewrite !elem_of_app. right. right. apply list_elem_of_here.
Qed.

Lemma small_vocabulary_aborts_before_sending_witness :
  permitted (row_env "9" 10 true) (row_file []) "2024-01-01" 10
  /\ exit_status (run (row_env "9" 10 true) (row_file [])).1 = 0%Z.
Proof.
  assert (Hp : permitted (row_env "9" 10 true) (row_file []) "2024-01-01" 10).
  { exists true. split; [reflexivity|]. left. reflexivity. }
  split; [exact Hp|].
  apply (proj2 (small_vocabulary_aborts_before_sending (row_env "9" 10 true)
                  (row_file []) "2024-01-01" 10%Z Hp));
    [cbn; lia|reflexivity|reflexivity].
Defined.

(** The claim C5 as written fails in its second half: the vocabulary is
    large enough, Telegram delivers, Twilio raises, and the run ends with
    status 1 without saving the state. *)
Lemma twilio_failure_exits_nonzero_unsaved :
  let e := with_backends (row_env "9" 10 true) twilio_down in
  let out := run e (row_file []) in
  (N_WORDS (config e) <= Z.of_nat (length (load_vocab (csv_rows e))))%Z
  /\ exit_status out.1 = 1%Z
  /\ exit_status out.1 <> 0%Z
  /\ (exists text, TelegramPost text ∈ log out.2)
  /\ (exists text, TwilioPost text ∈ log out.2)
  /\ ~ state_saved (log out.2)
  /\ state_file out.2 = row_file [].
Proof.
  intros e out. subst out.
  assert (Hp : permitted e (row_file []) "2024-01-01" 10).
  { exists true. split; [reflexivity|]. left. reflexivity. }
  rewrite (run_permitted e _ _ _ Hp).
  destruct (send_run_delivers e (row_file []) "2024-01-01" 10) as (picked & text & ->);
    [cbn; lia|].
  change (telegram_raises (backends e)) with false.
  change (twilio_raises (backends e)) with true.
  cbn [fst snd log state_file exit_status].
  pose proof (telegram_events_only (backends e) text) as [_ Hno_save].
  pose proof (twilio_events_no_save (backends e) text) as Hno_save'.
  split; [cbn; lia|]. split; [reflexivity|]. split; [discriminate|].
  split; [exists text; apply list_elem_of_here|].
  split; [exists text; cbn; rewrite !elem_of_cons; auto 10|].
  split; [rewrite state_saved_app; tauto|reflexivity].
Qed.

(** ** The message template *)

Section Occurrences.
Import PyStr.

Lemma occurrences_from_spec (needle hay : string) :
  forall k i,
    i ∈ occurrences_from k needle hay
    <-> exists j, i = (k + j)%nat /\ (j <= String.length hay)%nat
                  /\ String.prefix needle (skip j hay) = true.
Proof.
  induction hay as [|c hay IH]; intros k i.
  - cbn [occurrences_from String.length]. split.
    + destruct (String.prefix needle "") eqn:E; intros Hi.
      * apply list_elem_of_singleton in Hi. exists 0%nat. repeat split; [lia|lia|exact E].
      * apply elem_of_nil in Hi. destruct Hi.
    + intros (j & -> & Hj & Hp). assert (j = 0)%nat as -> by lia.
      cbn [skip] in Hp. rewrite Hp, Nat.add_0_r. apply list_elem_of_here.
  - cbn [occurrences_from String.length]. rewrite elem_of_app, IH. split.
    + intros [Hi|(j & -> & Hj & Hp)].
      * destruct (String.prefix needle (String c hay)) eqn:E.
        -- apply list_elem_of_singleton in Hi. exists 0%nat.
           repeat split; [lia|lia|exact E].
        -- apply elem_of_nil in Hi. destruct Hi.
      * exists (S j). repeat split; [lia|lia|exact Hp].
    + intros (j & -> & Hj & Hp). destruct j as [|j].
      * left. cbn [skip] in Hp. rewrite Hp, Nat.add_0_r. apply list_elem_of_here.
      * right. exists j. repeat split; [lia|lia|exact Hp].
Qed.

(** [occurrences] lists every offset at which the needle occurs. *)
Lemma occurs_at_occurrences (needle hay : string) (i : nat) :
  occurs_at needle hay i = true <-> i ∈ occurrences needle hay.
Proof.
  unfold occurs_at, occurrences. rewrite occurrences_from_spec, andb_true_iff.
  rewrite Nat.leb_le. split.
  - intros [Hi Hp]. exists i. auto.
  - intros (j & -> & Hj & Hp). auto.
Qed.

End Occurrences.

(** The offsets of the date and of the entry line in the message. *)
Lemma formatter_date_offsets :
  exists out,
    format_message "2024-01-01" [ola] = Ok out
    /\ PyStr.occurrences "2024-01-01" out = [24%nat]
    /\ PyStr.occurrences "1. ola [interj] — hi" out = [38%nat].
Proof.
  eexists. split; [vm_compute; reflexivity|].
  split; vm_compute; reflexivity.
Qed.

(** C7, as the script has it. For the single entry [ola] and the date
    2024-01-01 the message holds the date once, in its headline, and the
    entry line ["1. ola [interj] — hi"] once, after the date (offsets count
    the bytes of the UTF-8 text). *)
Theorem formatter_puts_date_before_entry :
  exists out,
    format_message "2024-01-01" [ola] = Ok out
    /\ PyStr.occurrences "2024-01-01" out = [24%nat]
    /\ PyStr.occurrences "1. ola [interj] — hi" out = [38%nat]
    /\ PyStr.occurs_at "2024-01-01" out 24 = true
    /\ PyStr.occurs_at "1. ola [interj] — hi" out 38 = true
    /\ (24 + String.length "2024-01-01" <= 38)%nat.
Proof.
  eexists. split; [vm_compute; reflexivity|].
  split; [vm_compute; reflexivity|]. split; [vm_compute; reflexivity|].
  split; [vm_compute; reflexivity|]. split; [vm_compute; reflexivity|].
  cbn. lia.
Qed.

(** The claim C7 as written fails: no occurrence of the entry line comes
    before an occurrence of the date. *)
Lemma entry_line_is_not_before_date :
  exists out,
    format_message "2024-01-01" [ola] = Ok out
    /\ ~ (exists i j,
             PyStr.occurs_at "1. ola [interj] — hi" out i = true
             /\ PyStr.occurs_at "2024-01-01" out j = true
             /\ (i < j)%nat).
Proof.
  destruct formatter_date_offsets as (out & Hout & Hd & He).
  exists out. split; [exact Hout|].
  intros (i & j & Hi & Hj & Hlt).
  apply occurs_at_occurrences in Hi, Hj. rewrite He in Hi. rewrite Hd in Hj.
  apply list_elem_of_singleton in Hi, Hj. lia.
Qed.

(** ** The sent-hours record *)

Lemma hours_recorded_saved (picked : State) (file : option State) (d d0 : string) (h : Z) :
  hours_recorded
    (Some (saved_state picked (sent_hours_of file) d h (hours_recorded file d))) d0
  = if decide (d = d0) then {[h]} ∪ hours_recorded file d0
    else hours_recorded file d0.
Proof.
  unfold hours_recorded at 1. rewrite sent_hours_of_saved.
  destruct (decide (d = d0)) as [<-|Hne].
  - rewrite lookup_insert_eq. cbn [default]. apply sorted_list_set.
  - rewrite lookup_insert_ne by exact Hne. reflexivity.
Qed.

(** C8. Over a run the sent-hours record of the state file only grows:
    every hour recorded for a date before the run is recorded for it after
    the run, and the entry of every date other than the date the guard
    returned is the very same list. *)
Theorem sent_hours_only_grow :
  forall e file,
    let file' := state_file (run e file).2 in
    (forall d hr, hr ∈ hours_recorded file d -> hr ∈ hours_recorded file' d)
    /\ (forall d',
        (forall allowed d hr,
            schedule_allows_sending (config e) (clock e) = Ok (allowed, d, hr) ->
            d' <> d) ->
        sent_hours_of file' !! d' = sent_hours_of file !! d').
Proof.
  intros e file file'. subst file'.
  destruct (schedule_allows_sending (config e) (clock e)) as [[[allowed d] h]|x] eqn:Hs.
  2:{ rewrite (run_schedule_raises e file x Hs). cbn. auto. }
  rewrite (run_guards e file allowed d h Hs).
  destruct (negb allowed && negb (FORCE_SEND (config e))); [cbn; auto|].
  destruct (bool_decide (h ∈ hours_recorded file d) && negb (FORCE_SEND (config e)));
    [cbn; auto|].
  unfold send_run.
  destruct (main_send_file e d h (default fresh_state file) (sent_hours_of file)
              (hours_recorded file d) {| state_file := file; log := [] |})
    as [[_ ->]|[_ [picked ->]]]; [cbn; auto|].
  split.
  - intros d0 hr Hhr. rewrite hours_recorded_saved.
    destruct (decide (d = d0)); [apply elem_of_union; right|]; exact Hhr.
  - intros d' Hd'. rewrite sent_hours_of_saved.
    apply lookup_insert_ne. intros ->. exact (Hd' allowed d' h eq_refl eq_refl).
Qed.

Lemma sent_hours_only_grow_witness :
  (9%Z ∈ hours_recorded (row_file [9%Z]) "2024-01-01")
  /\ (9%Z ∈ hours_recorded
              (state_file (run (row_env "9" 10 true) (row_file [9%Z])).2)
              "2024-01-01")
  /\ sent_hours_of (state_file (run (row_env "9" 10 true) (row_file [9%Z])).2)
       !! "2023-12-31"
     = sent_hours_of (row_file [9%Z]) !! "2023-12-31".
Proof.
  assert (H : 9%Z ∈ hours_recorded (row_file [9%Z]) "2024-01-01").
  { apply (bool_decide_unpack _). vm_compute. exact I. }
  split; [exact H|]. split.
  - exact (proj1 (sent_hours_only_grow (row_env "9" 10 true) (row_file [9%Z]))
             "2024-01-01" 9%Z H).
  - apply (proj2 (sent_hours_only_grow (row_env "9" 10 true) (row_file [9%Z]))).
    intros allowed d hr Hs. vm_compute in Hs. congruence.
Defined.

(** * Further properties of the script *)

(** ** Loading the vocabulary *)





(** ** The message *)

Lemma format_entry_line (i : Z) (w : VocabRow) :
  es w <> Absent -> format_entry i w = Ok (entry_line i w).
Proof.
  intros Hw. unfold format_entry, entry_line.
  destruct (es w); [congruence|reflexivity|reflexivity].
Qed.

Lemma format_entries_lines (words : list VocabRow) :
  forall i lines,
    format_entries i words = Ok lines ->
    lines = imap (fun k w => entry_line (i + Z.of_nat k) w) words.
Proof.
  induction words as [|w ws IH]; intros i lines; cbn [format_entries].
  - intros [= <-]. reflexivity.
  - destruct (format_entry i w) as [line|] eqn:Hl; [|discriminate].
    destruct (format_entries (i + 1) ws) as [rest|] eqn:Hr; [|discriminate].
    intros [= <-]. cbn [imap]. rewrite Z.add_0_r. f_equal.
    + unfold format_entry in Hl. unfold entry_line.
      destruct (es w); [discriminate|..]; injection Hl as <-; reflexivity.
    + rewrite (IH _ _ Hr). apply imap_ext. intros k x _. cbn.
      f_equal. lia.
Qed.

Lemma format_entries_key_error (words : list VocabRow) :
  Exists (fun w => es w = Absent) words ->
  forall i, format_entries i words = Raise KeyError.
Proof.
  induction words as [|w ws IH]; intros Hex i; [inversion Hex|].
  cbn [format_entries]. unfold format_entry.
  destruct (es w) eqn:E; [reflexivity|..];
    (rewrite IH; [reflexivity|]);
    apply Exists_cons in Hex as [Hex|Hex]; congruence.
Qed.

Lemma prefix_app (s t : string) : String.prefix s (s ++ t) = true.
Proof.
  induction s as [|c s IH]; simpl; [destruct t; reflexivity|].
  destruct (ascii_dec c c); [exact IH|congruence].
Qed.

Lemma prefix_join_head (sep h : string) (l : list string) :
  String.prefix h (PyStr.join sep (h :: l)) = true.
Proof.
  unfold PyStr.join. destruct l as [|x xs]; cbn [String.concat].
  - rewrite <- (prefix_app h ""). f_equal.
    induction h as [|c h IH]; [reflexivity|].
    change (String c h = String c (h ++ "")). f_equal. exact IH.
  - apply prefix_app.
Qed.

(** X2. [format_message] raises only for a word without the [es] key, and
    then it raises [KeyError]; for words taken from a loaded vocabulary it
    always returns a text. *)
Theorem format_message_needs_headword_key :
  forall today words,
    (Forall (fun w => es w <> Absent) words ->
     exists text, format_message today words = Ok text)
    /\ (Exists (fun w => es w = Absent) words ->
        format_message today words = Raise KeyError)
    /\ (forall rows, Forall (fun w => w ∈ load_vocab rows) words ->
        exists text, format_message today words = Ok text).
Proof.
  intros today words. split; [apply format_message_ok|]. split.
  - intros Hex. unfold format_message.
    rewrite (format_entries_key_error words Hex). reflexivity.
  - intros rows Hin. apply format_message_ok.
    pose proof (load_vocab_es rows) as Hes. rewrite Forall_forall in Hes, Hin |- *.
    intros w Hw. apply Hes, Hin, Hw.
Qed.

Lemma format_message_needs_headword_key_witness :
  (exists text, format_message "2024-01-01" [ola; desde_luego] = Ok text)
  /\ format_message "2024-01-01"
       [ola; {| es := Absent; pos := Text "n"; de := Null; example := Absent |}]
     = Raise KeyError.
Proof.
  split.
  - apply (proj1 (format_message_needs_headword_key "2024-01-01" [ola; desde_luego])).
    repeat constructor; discriminate.
  - apply (proj1 (proj2 (format_message_needs_headword_key "2024-01-01"
             [ola; {| es := Absent; pos := Text "n"; de := Null; example := Absent |}]))).
    apply Exists_cons_tl, Exists_cons_hd. reflexivity.
Defined.

(** X3. The text of [format_message] is the headline with today's date,
    one entry per word in the order given, the [k]-th (from 0) numbered
    [k + 1], and the closing line, joined by newlines; a cell that is
    [None] is printed as the text [None], a missing optional cell as
    nothing. The text begins with the headline. *)
Theorem format_message_numbers_entries :
  forall today words text,
    format_message today words = Ok text ->
    text = PyStr.join PyStr.nl
             (headline today
              :: imap (fun k w => entry_line (Z.of_nat k + 1) w) words ++ [footer])
    /\ String.prefix (headline today) text = true.
Proof.
  intros today words text. unfold format_message.
  destruct (format_entries 1 words) as [lines|] eqn:Hl; [|discriminate].
  intros [= <-]. apply format_entries_lines in Hl. subst lines.
  assert (Himap : imap (fun k w => entry_line (1 + Z.of_nat k) w) words
                  = imap (fun k w => entry_line (Z.of_nat k + 1) w) words).
  { apply imap_ext. intros k x _. cbn. f_equal. lia. }
  rewrite Himap. split; [reflexivity|]. apply prefix_join_head.
Qed.

Lemma format_message_numbers_entries_witness :
  String.prefix (headline "2024-01-01")
    (PyStr.join PyStr.nl
       (headline "2024-01-01"
        :: imap (fun k w => entry_line (Z.of_nat k + 1) w) [ola; acaso] ++ [footer]))
  = true.
Proof.
  assert (H : format_message "2024-01-01" [ola; acaso]
              = Ok (PyStr.join PyStr.nl
                      (headline "2024-01-01"
                       :: imap (fun k w => entry_line (Z.of_nat k + 1) w) [ola; acaso]
                       ++ [footer])))
    by (vm_compute; reflexivity).
  destruct (format_message_numbers_entries "2024-01-01" [ola; acaso] _ H) as [_ Hp].
  exact Hp.
Defined.

(** ** More on the selector *)

(** What a returned call of [pick_words] has done. *)
Lemma pick_words_returned (rnd : nat -> nat) (today : string)
    (vocab : list VocabRow) (st : State) (n : Z) (words : list VocabRow) (st' : State) :
  pick_words rnd today vocab st n = Ok (words, st') ->
  let total := length vocab in
  let used_set : gset Z := list_to_set (default [] (used st)) in
  let reset := (Z.of_nat (length (available total used_set)) <? n)%Z in
  let pool := if reset then seq 0 total else available total used_set in
  let base : gset Z := if reset then ∅ else used_set in
  exists chosen,
    (0 <= n <= Z.of_nat total)%Z
    /\ random_sample rnd pool n = Ok chosen
    /\ length chosen = Z.to_nat n
    /\ NoDup chosen
    /\ (forall i, i ∈ chosen -> i ∈ pool)
    /\ Forall2 (fun i w => vocab !! i = Some w) chosen words
    /\ st' = {| used := Some (sorted_list (base ∪ list_to_set (Z.of_nat <$> chosen)));
                last_sent := Some (Some today);
                sent_hours := sent_hours st |}.
Proof.
  intros Hp total used_set reset pool base.
  assert (Hn : (0 <= n <= Z.of_nat total)%Z).
  { destruct (Z.lt_ge_cases n 0) as [Hneg|Hn0].
    { rewrite pick_words_raises in Hp by (left; exact Hneg). discriminate. }
    destruct (Z.lt_ge_cases (Z.of_nat total) n) as [Hbig|Hle]; [|lia].
    rewrite pick_words_raises in Hp by (right; exact Hbig). discriminate. }
  destruct (pick_words_ok rnd today vocab st n Hn)
    as (chosen & words0 & Hs & Hlen & Hnd & Hin & Hw & Hp0).
  rewrite Hp0 in Hp. injection Hp as <- <-.
  exists chosen. auto 10.
Qed.

Lemma elem_of_sorted_list (s : gset Z) (z : Z) : z ∈ sorted_list s <-> z ∈ s.
Proof. rewrite <- (sorted_list_set s) at 2. rewrite elem_of_list_to_set. reflexivity. Qed.

Lemma elem_of_chosen_set (chosen : list nat) (i : nat) :
  Z.of_nat i ∈ (list_to_set (Z.of_nat <$> chosen) : gset Z) <-> i ∈ chosen.
Proof.
  rewrite elem_of_list_to_set, list_elem_of_fmap. split.
  - intros (j & Hj & Hin). apply Nat2Z.inj in Hj. subst. exact Hin.
  - intros Hin. eauto.
Qed.

(** X4. "Avoids repeats until exhausted": while at least [n] indices are
    unused, every row returned sits at a valid index that was not in the
    used list. *)
Theorem pick_words_avoids_used :
  forall rnd today vocab st n,
    let used_set : gset Z := list_to_set (default [] (used st)) in
    let avail := available (length vocab) used_set in
    (0 <= n <= Z.of_nat (length avail))%Z ->
    exists chosen words st',
      pick_words rnd today vocab st n = Ok (words, st')
      /\ random_sample rnd avail n = Ok chosen
      /\ Forall2 (fun i w => vocab !! i = Some w) chosen words
      /\ forall i, i ∈ chosen -> (i < length vocab)%nat /\ Z.of_nat i ∉ used_set.
Proof.
  intros rnd today vocab st n used_set avail Hn.
  pose proof (available_length (length vocab) used_set) as Hle. fold avail in Hle.
  destruct (pick_words_ok rnd today vocab st n) as
    (chosen & words & Hs & _ & _ & Hin & Hw & Hp); [lia|].
  fold used_set in Hs, Hin, Hp. fold avail in Hs, Hin, Hp.
  replace (Z.of_nat (length avail) <? n)%Z with false in Hs, Hin
    by (symmetry; apply Z.ltb_ge; lia).
  exists chosen, words. eexists. split; [exact Hp|]. split; [exact Hs|].
  split; [exact Hw|]. intros i Hi. apply available_spec, Hin, Hi.
Qed.

Lemma pick_words_avoids_used_witness :
  exists (chosen : list nat) (words : list VocabRow) (st' : State),
    pick_words (fun i => i) "2024-01-01" sample_vocab
      {| used := Some [0; 2]%Z; last_sent := None; sent_hours := None |} 2
    = Ok (words, st')
    /\ Forall2 (fun i w => sample_vocab !! i = Some w) chosen words
    /\ forall i, i ∈ chosen ->
                 (i < length sample_vocab)%nat
                 /\ Z.of_nat i ∉ (list_to_set [0; 2]%Z : gset Z).
Proof.
  destruct (pick_words_avoids_used (fun i => i) "2024-01-01" sample_vocab
              {| used := Some [0; 2]%Z; last_sent := None; sent_hours := None |} 2%Z)
    as (chosen & words & st' & Hp & _ & Hw & Hin).
  - vm_compute. split; discriminate.
  - exists chosen, words, st'. auto.
Defined.

(** X5. A reset cannot avoid a repeat: when fewer than [n] indices are
    unused, the draw is made from all indices and at least one of the rows
    returned sits at an index of the used list. *)
Theorem reset_repeats_a_used_word :
  forall rnd today vocab st n,
    let used_set : gset Z := list_to_set (default [] (used st)) in
    let avail := available (length vocab) used_set in
    (Z.of_nat (length avail) < n <= Z.of_nat (length vocab))%Z ->
    exists chosen words st',
      pick_words rnd today vocab st n = Ok (words, st')
      /\ random_sample rnd (seq 0 (length vocab)) n = Ok chosen
      /\ Forall2 (fun i w => vocab !! i = Some w) chosen words
      /\ exists i, i ∈ chosen /\ Z.of_nat i ∈ used_set.
Proof.
  intros rnd today vocab st n used_set avail Hn.
  destruct (pick_words_ok rnd today vocab st n) as
    (chosen & words & Hs & Hlen & Hnd & Hin & Hw & Hp); [lia|].
  fold used_set in Hs, Hin, Hp. fold avail in Hs, Hin, Hp.
  replace (Z.of_nat (length avail) <? n)%Z with true in Hs, Hin
    by (symmetry; apply Z.ltb_lt; lia).
  exists chosen, words. eexists. split; [exact Hp|]. split; [exact Hs|].
  split; [exact Hw|].
  destruct (decide (Exists (fun i => Z.of_nat i ∈ used_set) chosen)) as [Hex|Hno].
  - apply Exists_exists in Hex. exact Hex.
  - exfalso. assert (Hsub : chosen ⊆+ avail).
    { apply NoDup_submseteq; [exact Hnd|]. intros i Hi.
      apply available_spec. split.
      - apply Hin, elem_of_seq in Hi. lia.
      - intros Hu. apply Hno, Exists_exists. eauto. }
    apply submseteq_length in Hsub. lia.
Qed.

Lemma reset_repeats_a_used_word_witness :
  exists (chosen : list nat) (words : list VocabRow) (st' : State),
    pick_words (fun i => i) "2024-01-01" sample_vocab
      {| used := Some [0; 1; 2]%Z; last_sent := None; sent_hours := None |} 2
    = Ok (words, st')
    /\ exists i, i ∈ chosen /\ Z.of_nat i ∈ (list_to_set [0; 1; 2]%Z : gset Z).
Proof.
  destruct (reset_repeats_a_used_word (fun i => i) "2024-01-01" sample_vocab
              {| used := Some [0; 1; 2]%Z; last_sent := None; sent_hours := None |} 2%Z)
    as (chosen & words & st' & Hp & _ & _ & Hex).
  - vm_compute. split; [reflexivity|discriminate].
  - exists chosen, words, st'. auto.
Defined.

(** X6. Two calls in a row: when the second call does not reset, no index
    drawn by the first call is drawn again by the second, and the indices
    of the first call are still in the used list after the second. *)
Theorem consecutive_picks_are_disjoint :
  forall rnd1 rnd2 today1 today2 vocab st n1 n2 words1 st1,
    pick_words rnd1 today1 vocab st n1 = Ok (words1, st1) ->
    let total := length vocab in
    let used0 : gset Z := list_to_set (default [] (used st)) in
    let used1 : gset Z := list_to_set (default [] (used st1)) in
    (0 <= n2 <= Z.of_nat (length (available total used1)))%Z ->
    exists chosen1 chosen2 words2 st2,
      (random_sample rnd1 (available total used0) n1 = Ok chosen1
       \/ random_sample rnd1 (seq 0 total) n1 = Ok chosen1)
      /\ Forall2 (fun i w => vocab !! i = Some w) chosen1 words1
      /\ pick_words rnd2 today2 vocab st1 n2 = Ok (words2, st2)
      /\ random_sample rnd2 (available total used1) n2 = Ok chosen2
      /\ Forall2 (fun i w => vocab !! i = Some w) chosen2 words2
      /\ (forall i, i ∈ chosen1 -> i ∉ chosen2)
      /\ (forall i, i ∈ chosen1 ->
            Z.of_nat i ∈ (list_to_set (default [] (used st2)) : gset Z)).
Proof.
  intros rnd1 rnd2 today1 today2 vocab st n1 n2 words1 st1 Hp1 total used0 used1 Hn2.
  destruct (pick_words_returned _ _ _ _ _ _ _ Hp1)
    as (chosen1 & _ & Hs1 & _ & _ & _ & Hw1 & Hst1).
  fold total used0 in Hs1, Hst1.
  assert (Hused1 : forall i, i ∈ chosen1 -> Z.of_nat i ∈ used1).
  { intros i Hi. unfold used1. rewrite Hst1. cbn [used from_option id].
    rewrite sorted_list_set. apply elem_of_union. right.
    apply elem_of_chosen_set, Hi. }
  pose proof (available_length total used1) as Hle.
  destruct (pick_words_ok rnd2 today2 vocab st1 n2) as
    (chosen2 & words2 & Hs2 & _ & _ & Hin2 & Hw2 & Hp2); [fold total; lia|].
  fold total used1 in Hs2, Hin2, Hp2.
  replace (Z.of_nat (length (available total used1)) <? n2)%Z with false
    in Hs2, Hin2, Hp2 by (symmetry; apply Z.ltb_ge; lia).
  exists chosen1, chosen2, words2. eexists.
  split; [destruct (_ <? n1)%Z in Hs1; auto|].
  split; [exact Hw1|]. split; [exact Hp2|]. split; [exact Hs2|].
  split; [exact Hw2|]. split.
  - intros i Hi1 Hi2. apply Hin2, available_spec in Hi2. destruct Hi2 as [_ Hi2].
    apply Hi2, Hused1, Hi1.
  - intros i Hi. cbn [used from_option id]. rewrite sorted_list_set.
    apply elem_of_union. left. apply Hused1, Hi.
Qed.

Lemma consecutive_picks_are_disjoint_witness :
  exists (chosen1 chosen2 : list nat) (words2 : list VocabRow) (st2 : State),
    Forall2 (fun i w => sample_vocab !! i = Some w) chosen1 [ola; acaso]
    /\ pick_words (fun i => (3 * i)%nat) "2024-01-02" sample_vocab
         {| used := Some [0; 1]%Z; last_sent := Some (Some "2024-01-01");
            sent_hours := None |} 2
       = Ok (words2, st2)
    /\ (forall i, i ∈ chosen1 -> i ∉ chosen2).
Proof.
  assert (Hp1 : pick_words (fun i => i) "2024-01-01" sample_vocab
                  {| used := None; last_sent := None; sent_hours := None |} 2
                = Ok ([ola; acaso],
                      {| used := Some [0; 1]%Z; last_sent := Some (Some "2024-01-01");
                         sent_hours := None |}))
    by (vm_compute; reflexivity).
  destruct (consecutive_picks_are_disjoint (fun i => i) (fun i => (3 * i)%nat)
              "2024-01-01" "2024-01-02" sample_vocab _ 2%Z 2%Z _ _ Hp1)
    as (chosen1 & chosen2 & words2 & st2 & _ & Hw1 & Hp2 & _ & _ & Hdis & _).
  - vm_compute. split; discriminate.
  - exists chosen1, chosen2, words2, st2. auto.
Defined.

(** X7. The used list stays within the indices of the vocabulary: when
    the old list held only valid indices, or when the call resets, the new
    list holds only valid indices and is no longer than the vocabulary.
    Without a reset nothing is removed from the list, so an index that is
    out of range (a vocabulary that has shrunk) stays in it. *)
Theorem pick_words_keeps_indices_valid :
  forall rnd today vocab st n words st' used',
    pick_words rnd today vocab st n = Ok (words, st') ->
    used st' = Some used' ->
    let total := length vocab in
    let old := default [] (used st) in
    let avail := available total (list_to_set old) in
    (Forall (valid_index total) old \/ (Z.of_nat (length avail) < n)%Z ->
     Forall (valid_index total) used' /\ (length used' <= total)%nat)
    /\ ((n <= Z.of_nat (length avail))%Z -> forall z, z ∈ old -> z ∈ used').
Proof.
  intros rnd today vocab st n words st' used' Hp Hu total old avail.
  destruct (pick_words_returned _ _ _ _ _ _ _ Hp)
    as (chosen & _ & _ & _ & _ & Hin & _ & Hst).
  fold total old avail in Hin, Hst. rewrite Hst in Hu. cbn [used] in Hu.
  injection Hu as <-.
  assert (Hchosen : forall i, i ∈ chosen -> (i < total)%nat).
  { intros i Hi. apply Hin in Hi. destruct (_ <? n)%Z.
    - apply elem_of_seq in Hi. lia.
    - apply available_spec in Hi. tauto. }
  split.
  - intros Hcase.
    assert (Hvalid : Forall (valid_index total)
              (sorted_list ((if (Z.of_nat (length avail) <? n)%Z
                             then ∅ else list_to_set old)
                            ∪ list_to_set (Z.of_nat <$> chosen)))).
    { apply Forall_forall. intros z Hz.
      apply elem_of_sorted_list, elem_of_union in Hz. destruct Hz as [Hz|Hz].
      - destruct (Z.of_nat (length avail) <? n)%Z eqn:E.
        + apply not_elem_of_empty in Hz. destruct Hz.
        + destruct Hcase as [Hold|Hlt]; [|apply Z.ltb_ge in E; lia].
          rewrite Forall_forall in Hold. apply elem_of_list_to_set in Hz.
          apply Hold, Hz.
      - apply elem_of_list_to_set, list_elem_of_fmap in Hz.
        destruct Hz as (i & -> & Hi). apply Hchosen in Hi. unfold valid_index. lia. }
    split; [exact Hvalid|].
    assert (Hsub : sorted_list ((if (Z.of_nat (length avail) <? n)%Z
                                 then ∅ else list_to_set old)
                                ∪ list_to_set (Z.of_nat <$> chosen))
                   ⊆+ (Z.of_nat <$> seq 0 total)).
    { apply NoDup_submseteq; [apply sorted_list_NoDup|]. intros z Hz.
      rewrite Forall_forall in Hvalid. apply Hvalid in Hz. unfold valid_index in Hz.
      apply list_elem_of_fmap. exists (Z.to_nat z). split; [lia|].
      apply elem_of_seq. lia. }
    apply submseteq_length in Hsub. rewrite length_fmap, length_seq in Hsub.
    exact Hsub.
  - intros Hge z Hz. apply Z.ltb_ge in Hge. rewrite Hge.
    apply elem_of_sorted_list, elem_of_union. left.
    apply elem_of_list_to_set, Hz.
Qed.

Lemma pick_words_keeps_indices_valid_witness :
  (Forall (valid_index (length sample_vocab)) [0; 1; 3]%Z
   /\ (length [0; 1; 3]%Z <= length sample_vocab)%nat)
  /\ (forall z, z ∈ [7]%Z -> z ∈ [0; 1; 7]%Z).
Proof.
  assert (H1 : pick_words (fun i => i) "2024-01-01" sample_vocab fresh_state 3
               = Ok ([ola; acaso; desde_luego],
                     {| used := Some [0; 1; 3]%Z;
                        last_sent := Some (Some "2024-01-01");
                        sent_hours := Some ∅ |}))
    by (vm_compute; reflexivity).
  assert (H2 : pick_words (fun i => i) "2024-01-01" sample_vocab
                 {| used := Some [7]%Z; last_sent := None; sent_hours := None |} 2
               = Ok ([ola; acaso],
                     {| used := Some [0; 1; 7]%Z;
                        last_sent := Some (Some "2024-01-01");
                        sent_hours := None |}))
    by (vm_compute; reflexivity).
  split.
  - apply (proj1 (pick_words_keeps_indices_valid _ _ _ _ _ _ _ _ H1 eq_refl)).
    left. constructor.
  - apply (proj2 (pick_words_keeps_indices_valid _ _ _ _ _ _ _ _ H2 eq_refl)).
    vm_compute. discriminate.
Defined.

(** ** The shape of a run *)

Lemma guards_passed_permitted (e : Env) (file : option State) (allowed : bool)
    (d : string) (h : Z) :
  schedule_allows_sending (config e) (clock e) = Ok (allowed, d, h) ->
  negb allowed && negb (FORCE_SEND (config e)) = false ->
  bool_decide (h ∈ hours_recorded file d) && negb (FORCE_SEND (config e)) = false ->
  permitted e file d h.
Proof.
  intros Hs H1 H2. exists allowed. split; [exact Hs|].
  destruct (FORCE_SEND (config e)); [left; reflexivity|right].
  rewrite andb_true_r in H1, H2. apply negb_false_iff in H1.
  apply bool_decide_eq_false in H2. auto.
Qed.

(** A run that passed the guards: with a negative [N_WORDS] the draw
    raises and nothing has happened; with too few rows the run stops at the
    size check; else it ends as [delivery_outcome] says. *)
Lemma send_run_shape (e : Env) (file : option State) (d : string) (h : Z) :
  let today := c_date (local_now (clock e)) in
  let vocab := load_vocab (csv_rows e) in
  let n := N_WORDS (config e) in
  ((n < 0)%Z
   /\ send_run e file d h = (Raise ValueError, {| state_file := file; log := [] |}))
  \/ ((Z.of_nat (length vocab) < n)%Z
      /\ send_run e file d h
         = (Raise (SystemExit 1),
            {| state_file := file; log := [Printed "Vocab list too small."] |}))
  \/ ((0 <= n <= Z.of_nat (length vocab))%Z
      /\ exists words picked text,
        pick_words (rnd e) today vocab (default fresh_state file) n = Ok (words, picked)
        /\ format_message today words = Ok text
        /\ send_run e file d h
           = delivery_outcome (backends e) file
               (saved_state picked (sent_hours_of file) d h (hours_recorded file d))
               text).
Proof.
  intros today vocab n. unfold send_run.
  destruct (Z.lt_ge_cases (Z.of_nat (length vocab)) n) as [Hn|Hn].
  { right. left. split; [exact Hn|].
    rewrite (main_send_too_small e d h _ _ _ _ Hn). reflexivity. }
  destruct (Z.lt_ge_cases n 0) as [Hneg|Hn0].
  { left. split; [exact Hneg|].
    apply (main_send_pick_raises e d h _ _ _ _ ValueError Hn).
    apply pick_words_raises. left. exact Hneg. }
  right. right. split; [fold vocab n; lia|].
  destruct (reaches_delivery e (default fresh_state file) (conj Hn0 Hn))
    as (words & picked & text & Hp & Hf).
  exists words, picked, text. split; [exact Hp|]. split; [exact Hf|].
  rewrite (main_send_delivers e d h _ _ _ _ words picked text Hn Hp Hf).
  unfold delivery_outcome, add_events. cbn [log state_file app]. reflexivity.
Qed.

Lemma schedule_raises_only_zone (cfg : Config) (clk : Clock) (x : exn) :
  schedule_allows_sending cfg clk = Raise x ->
  x = ZoneInfoNotFoundError /\ zone_now clk = ZoneNotFound
  /\ FORCE_SEND cfg = false /\ blank (TARGET_HOURS cfg) = false.
Proof.
  unfold schedule_allows_sending. fold (blank (TARGET_HOURS cfg)).
  destruct (FORCE_SEND cfg), (blank (TARGET_HOURS cfg)); cbn; try discriminate.
  destruct (zone_now clk); try discriminate. intros [= <-]. auto.
Qed.

(** Every run: the zone lookup raised, a guard skipped, or the run passed
    the guards. *)
Lemma run_shape (e : Env) (file : option State) :
  run e file = (Raise ZoneInfoNotFoundError, {| state_file := file; log := [] |})
  \/ (exists line, run e file = skipped file line)
  \/ (exists d h, permitted e file d h /\ run e file = send_run e file d h).
Proof.
  destruct (schedule_allows_sending (config e) (clock e))
    as [[[allowed d] h]|x] eqn:Hs.
  2:{ left. destruct (schedule_raises_only_zone _ _ _ Hs) as [-> _].
      apply run_schedule_raises, Hs. }
  rewrite (run_guards e file allowed d h Hs).
  destruct (negb allowed && negb (FORCE_SEND (config e))) eqn:H1;
    [right; left; eauto|].
  destruct (bool_decide (h ∈ hours_recorded file d) && negb (FORCE_SEND (config e)))
    eqn:H2; [right; left; eauto|].
  right. right. exists d, h. split; [|reflexivity].
  apply (guards_passed_permitted e file allowed d h Hs H1 H2).
Qed.

Lemma delivery_posts (b : Backends) (file : option State) (st' : State) (text : string) :
  let l := log (delivery_outcome b file st' text).2 in
  telegram_posts l = (if telegram_configured b then [text] else [])
  /\ twilio_posts l
     = (if twilio_configured b && negb (telegram_raises b) then [text] else [])
  /\ saves l = (if telegram_raises b || twilio_raises b then [] else [st']).
Proof.
  unfold delivery_outcome, telegram_raises, twilio_raises, telegram_events,
    twilio_events, telegram_posts, twilio_posts, saves.
  destruct (telegram_configured b), (telegram_reply b),
    (twilio_configured b), (twilio_reply b); cbn; auto.
Qed.

(** ** Requests, exit status and the next run *)

(** X8. Whatever happens in a run, each backend is posted to at most
    once and the state file is written at most once; every text posted is
    the formatted message of the words picked in this run, Twilio is posted
    to only after Telegram returned, and a state that was written is the
    state the file holds at the end. *)
Theorem one_request_per_backend :
  forall e file,
    let l := log (run e file).2 in
    let today := c_date (local_now (clock e)) in
    (length (telegram_posts l) <= 1)%nat
    /\ (length (twilio_posts l) <= 1)%nat
    /\ (length (saves l) <= 1)%nat
    /\ (forall t, t ∈ (telegram_posts l ++ twilio_posts l)%list ->
          exists words picked,
            pick_words (rnd e) today (load_vocab (csv_rows e))
              (default fresh_state file) (N_WORDS (config e)) = Ok (words, picked)
            /\ format_message today words = Ok t)
    /\ (twilio_posts l <> [] -> telegram_raises (backends e) = false)
    /\ (forall st, st ∈ saves l -> state_file (run e file).2 = Some st).
Proof.
  intros e file l today. subst l.
  assert (Hquiet : forall out : result unit * World,
             log out.2 = [] \/ (exists line, log out.2 = [Printed line]) ->
             telegram_posts (log out.2) = [] /\ twilio_posts (log out.2) = []
             /\ saves (log out.2) = []).
  { intros out [->|[line ->]]; auto. }
  assert (Hnone : forall out : result unit * World,
             telegram_posts (log out.2) = [] /\ twilio_posts (log out.2) = []
             /\ saves (log out.2) = [] ->
             (length (telegram_posts (log out.2)) <= 1)%nat
             /\ (length (twilio_posts (log out.2)) <= 1)%nat
             /\ (length (saves (log out.2)) <= 1)%nat
             /\ (forall t, t ∈ (telegram_posts (log out.2) ++ twilio_posts (log out.2))%list ->
                   exists words picked,
                     pick_words (rnd e) today (load_vocab (csv_rows e))
                       (default fresh_state file) (N_WORDS (config e)) = Ok (words, picked)
                     /\ format_message today words = Ok t)
             /\ (twilio_posts (log out.2) <> [] -> telegram_raises (backends e) = false)
             /\ (forall st, st ∈ saves (log out.2) -> state_file out.2 = Some st)).
  { intros out (-> & -> & ->). cbn. repeat split; try lia.
    - intros t Ht. apply elem_of_nil in Ht. destruct Ht.
    - congruence.
    - intros st Hst. apply elem_of_nil in Hst. destruct Hst. }
  destruct (run_shape e file) as [->|[[line ->]|(d & h & _ & ->)]].
  - apply Hnone, Hquiet. left. reflexivity.
  - apply Hnone, Hquiet. right. exists line. reflexivity.
  - destruct (send_run_shape e file d h)
      as [[_ ->]|[[_ ->]|(_ & words & picked & text & Hp & Hf & ->)]].
    + apply Hnone, Hquiet. left. reflexivity.
    + apply Hnone, Hquiet. right. eexists. reflexivity.
    + destruct (delivery_posts (backends e) file
                  (saved_state picked (sent_hours_of file) d h (hours_recorded file d))
                  text) as (-> & -> & ->).
      split; [destruct (telegram_configured _); cbn; lia|].
      split; [destruct (_ && _); cbn; lia|].
      split; [destruct (_ || _); cbn; lia|].
      split.
      { intros t Ht. exists words, picked. split; [exact Hp|].
        assert (t = text) as ->; [|exact Hf].
        apply elem_of_app in Ht.
        destruct (telegram_configured _), (_ && _), Ht as [Ht|Ht];
          first [apply list_elem_of_singleton in Ht; exact Ht
                | apply elem_of_nil in Ht; destruct Ht]. }
      split.
      { destruct (telegram_raises (backends e)); [|reflexivity].
        rewrite andb_false_r. congruence. }
      intros st Hst. unfold delivery_outcome.
      destruct (telegram_raises (backends e)), (twilio_raises (backends e));
        cbn in Hst |- *;
        first [apply list_elem_of_singleton in Hst; congruence
              | apply elem_of_nil in Hst; destruct Hst].
Qed.

(** X9. The exit status of a run is 0 or 1, and it is 0 exactly when a
    guard skipped the run or the state file was written; in particular a
    status 0 does not say that a message went out. *)
Theorem exit_zero_means_skipped_or_saved :
  forall e file,
    (exit_status (run e file).1 = 0%Z \/ exit_status (run e file).1 = 1%Z)
    /\ (exit_status (run e file).1 = 0%Z
        <-> (exists line, run e file = skipped file line)
            \/ saves (log (run e file).2) <> []).
Proof.
  intros e file.
  assert (Hfail : forall x evs,
             exit_status (Raise x : result unit) = 1%Z ->
             saves evs = [] ->
             run e file = (Raise x, {| state_file := file; log := evs |}) ->
             (exit_status (run e file).1 = 0%Z \/ exit_status (run e file).1 = 1%Z)
             /\ (exit_status (run e file).1 = 0%Z
                 <-> (exists line, run e file = skipped file line)
                     \/ saves (log (run e file).2) <> [])).
  { intros x evs Hx Hsv ->. cbn [fst snd log]. rewrite Hx, Hsv.
    split; [auto|]. split; [discriminate|].
    intros [[line Hl]|Hn]; [discriminate|congruence]. }
  destruct (run_shape e file) as [Hr|[[line Hr]|(d & h & _ & Hr)]].
  - refine (Hfail _ _ _ _ Hr); reflexivity.
  - rewrite Hr. cbn. split; [auto|]. split; [eauto|reflexivity].
  - destruct (send_run_shape e file d h)
      as [[_ Hz]|[[_ Hz]|(_ & words & picked & text & _ & _ & Hz)]];
      rewrite Hz in Hr.
    + refine (Hfail _ _ _ _ Hr); reflexivity.
    + refine (Hfail _ _ _ _ Hr); reflexivity.
    + pose proof (delivery_posts (backends e) file
                    (saved_state picked (sent_hours_of file) d h (hours_recorded file d))
                    text) as (_ & _ & Hsv).
      cbn zeta in Hsv. unfold delivery_outcome in Hr, Hsv.
      destruct (telegram_raises (backends e));
        [cbn [fst snd log orb] in Hsv; refine (Hfail _ _ _ Hsv Hr); reflexivity|].
      destruct (twilio_raises (backends e));
        [cbn [fst snd log orb] in Hsv; refine (Hfail _ _ _ Hsv Hr); reflexivity|].
      rewrite Hr. cbn [fst snd log exit_status orb] in Hsv |- *.
      rewrite Hsv. split; [auto|]. split; [right; discriminate|reflexivity].
Qed.

(** X10. The duplicate guard across two runs: after a run that passed
    the guards with the pair [(d, h)] and returned, every later run that is
    not forced and whose guard returns the same pair is skipped on the
    state file the first run left: it prints one line, posts nothing and
    leaves the file as it is. *)
Theorem next_run_in_same_hour_is_skipped :
  forall e file d h e2 allowed2,
    permitted e file d h ->
    (run e file).1 = Ok tt ->
    FORCE_SEND (config e2) = false ->
    schedule_allows_sending (config e2) (clock e2) = Ok (allowed2, d, h) ->
    let file' := state_file (run e file).2 in
    h ∈ hours_recorded file' d
    /\ exists line, run e2 file' = skipped file' line.
Proof.
  intros e file d h e2 allowed2 Hperm Hok Hforce Hs2 file'. subst file'.
  rewrite (run_permitted e file d h Hperm) in Hok |- *. unfold send_run in *.
  destruct (main_send_file e d h (default fresh_state file) (sent_hours_of file)
              (hours_recorded file d) {| state_file := file; log := [] |})
    as [[Hne _]|[_ [picked ->]]]; [contradiction|].
  assert (Hin : h ∈ hours_recorded
                     (Some (saved_state picked (sent_hours_of file) d h
                              (hours_recorded file d))) d).
  { rewrite hours_recorded_saved. rewrite decide_True by reflexivity.
    apply elem_of_union. left. apply elem_of_singleton. reflexivity. }
  split; [exact Hin|].
  rewrite (run_guards e2 _ allowed2 d h Hs2), Hforce.
  rewrite (bool_decide_eq_true_2 _ Hin). cbn [negb andb].
  destruct (negb allowed2 && true); eauto.
Qed.

Lemma next_run_in_same_hour_is_skipped_witness :
  exists line,
    run (row_env "9,15,21" 15 false)
      (state_file (run (row_env "9,15,21" 15 false) (row_file [9%Z])).2)
    = skipped (state_file (run (row_env "9,15,21" 15 false) (row_file [9%Z])).2) line.
Proof.
  assert (Hp : permitted (row_env "9,15,21" 15 false) (row_file [9%Z]) "2024-01-01" 15).
  { exists true. split; [reflexivity|]. right. split; [reflexivity|].
    apply (bool_decide_unpack _). vm_compute. exact I. }
  assert (Hok : (run (row_env "9,15,21" 15 false) (row_file [9%Z])).1 = Ok tt).
  { rewrite (run_permitted _ _ _ _ Hp).
    destruct (send_run_delivers (row_env "9,15,21" 15 false) (row_file [9%Z])
                "2024-01-01" 15) as (picked & text & ->); [cbn; lia|reflexivity]. }
  exact (proj2 (next_run_in_same_hour_is_skipped
                  (row_env "9,15,21" 15 false) (row_file [9%Z]) "2024-01-01" 15%Z
                  (row_env "9,15,21" 15 false) true Hp Hok eq_refl eq_refl)).
Defined.

(** X11. A negative [N_WORDS] is not caught by the size check: a run that
    passed the guards goes on to [random.sample], which raises
    [ValueError]; the run ends with status 1 and has printed, posted and
    written nothing. *)
Theorem negative_word_count_crashes_the_run :
  forall e file d h,
    permitted e file d h ->
    (N_WORDS (config e) < 0)%Z ->
    run e file = (Raise ValueError, {| state_file := file; log := [] |})
    /\ exit_status (run e file).1 = 1%Z.
Proof.
  intros e file d h Hperm Hneg.
  rewrite (run_permitted e file d h Hperm).
  destruct (send_run_shape e file d h)
    as [[_ ->]|[[Hsmall _]|(Hn & _)]]; [auto|lia|lia].
Qed.

Lemma negative_word_count_crashes_the_run_witness :
  run negative_count_env None
  = (Raise ValueError, {| state_file := None; log := [] |}).
Proof.
  refine (proj1 (negative_word_count_crashes_the_run
                   negative_count_env None "2024-01-01" 8%Z _ _)).
  - exists true. split; [reflexivity|]. right. split; [reflexivity|].
    apply (bool_decide_unpack _). vm_compute. exact I.
  - cbn. lia.
Defined.

Lemma sorted_list_singleton (z : Z) : sorted_list ({[z]} ∪ ∅) = [z].
Proof.
  unfold sorted_list. rewrite (right_id_L ∅ (∪)), elements_singleton. reflexivity.
Qed.

Lemma filter_all {A} (P : A -> Prop) `{!forall x, Decision (P x)} (l : list A) :
  (forall x, P x) -> filter P l = l.
Proof.
  intros HP. induction l as [|x l IH]; [reflexivity|].
  rewrite filter_cons_True by apply HP. rewrite IH. reflexivity.
Qed.

Lemma available_empty (total : nat) : available total ∅ = seq 0 total.
Proof. unfold available. apply filter_all. intros x. apply not_elem_of_empty. Qed.

(** X12. The state file after a run that passed the guards with [(d, h)]
    and returned: the used list and the hours recorded under [d] are
    sorted and free of repetitions, [h] is among those hours, and the
    last-sent marker is the system-local date, also when [d] is the date
    of the configured zone. *)
Theorem saved_state_is_normalised :
  forall e file d h,
    permitted e file d h ->
    (run e file).1 = Ok tt ->
    exists st' used' hours recorded,
      state_file (run e file).2 = Some st'
      /\ used st' = Some used'
      /\ Sorted Z.le used' /\ NoDup used'
      /\ sent_hours st' = Some recorded
      /\ recorded !! d = Some hours
      /\ Sorted Z.le hours /\ NoDup hours /\ h ∈ hours
      /\ last_sent st' = Some (Some (c_date (local_now (clock e)))).
Proof.
  intros e file d h Hperm Hok.
  rewrite (run_permitted e file d h Hperm) in Hok |- *.
  destruct (send_run_shape e file d h)
    as [[_ Hz]|[[_ Hz]|(_ & words & picked & text & Hp & _ & Hz)]];
    rewrite Hz in Hok |- *; try discriminate.
  unfold delivery_outcome in Hok |- *.
  destruct (telegram_raises (backends e)); [discriminate|].
  destruct (twilio_raises (backends e)); [discriminate|].
  destruct (pick_words_returned _ _ _ _ _ _ _ Hp) as (chosen & _ & _ & _ & _ & _ & _ & ->).
  cbn [fst snd state_file]. unfold saved_state. cbn [used last_sent sent_hours].
  eexists _, _, _, _. split; [reflexivity|]. split; [reflexivity|].
  split; [apply sorted_list_sorted|]. split; [apply sorted_list_NoDup|].
  split; [reflexivity|]. split; [apply lookup_insert_eq|].
  split; [apply sorted_list_sorted|]. split; [apply sorted_list_NoDup|].
  split; [|reflexivity].
  apply elem_of_sorted_list, elem_of_union. left. apply elem_of_singleton. reflexivity.
Qed.

Lemma saved_state_is_normalised_witness :
  exists st' used' hours recorded,
    state_file (run (row_env "9" 10 true) (row_file [12; 9]%Z)).2 = Some st'
    /\ used st' = Some used'
    /\ Sorted Z.le used' /\ NoDup used'
    /\ sent_hours st' = Some recorded
    /\ recorded !! "2024-01-01" = Some hours
    /\ Sorted Z.le hours /\ NoDup hours /\ 10%Z ∈ hours
    /\ last_sent st' = Some (Some "2024-01-01").
Proof.
  assert (Hp : permitted (row_env "9" 10 true) (row_file [12; 9]%Z) "2024-01-01" 10).
  { exists true. split; [reflexivity|]. left. reflexivity. }
  apply (saved_state_is_normalised _ _ _ _ Hp).
  rewrite (run_permitted _ _ _ _ Hp).
  destruct (send_run_delivers (row_env "9" 10 true) (row_file [12; 9]%Z)
              "2024-01-01" 10) as (picked & text & ->); [cbn; lia|reflexivity].
Defined.

(** X13. The first run, without a state file: when it passes the guards
    with [(d, h)] and returns, the file it writes holds as used list the
    drawn indices, sorted, as last-sent marker the local date, and as
    sent-hours record the single entry [d -> [h]]; the draw is made from
    all indices. *)
Theorem first_run_writes_fresh_record :
  forall e d h,
    permitted e None d h ->
    (run e None).1 = Ok tt ->
    exists chosen,
      random_sample (rnd e) (seq 0 (length (load_vocab (csv_rows e))))
        (N_WORDS (config e)) = Ok chosen
      /\ state_file (run e None).2
         = Some {| used := Some (sorted_list (list_to_set (Z.of_nat <$> chosen)));
                   last_sent := Some (Some (c_date (local_now (clock e))));
                   sent_hours := Some {[ d := [h] ]} |}.
Proof.
  intros e d h Hperm Hok.
  rewrite (run_permitted e None d h Hperm) in Hok |- *.
  destruct (send_run_shape e None d h)
    as [[_ Hz]|[[_ Hz]|(_ & words & picked & text & Hp & _ & Hz)]];
    rewrite Hz in Hok |- *; try discriminate.
  unfold delivery_outcome in Hok |- *.
  destruct (telegram_raises (backends e)); [discriminate|].
  destruct (twilio_raises (backends e)); [discriminate|].
  destruct (pick_words_returned _ _ _ _ _ _ _ Hp)
    as (chosen & Hn & Hs & _ & _ & _ & _ & ->).
  assert (Hu : (list_to_set (default [] (used (default fresh_state None))) : gset Z) = ∅)
    by reflexivity.
  assert (Hm : sent_hours_of None = ∅) by reflexivity.
  assert (Hh : hours_recorded None d = ∅).
  { unfold hours_recorded. rewrite Hm, lookup_empty. reflexivity. }
  rewrite Hu, available_empty, length_seq in Hs |- *.
  replace (Z.of_nat (length (load_vocab (csv_rows e))) <? N_WORDS (config e))%Z
    with false in Hs |- * by (symmetry; apply Z.ltb_ge; lia).
  exists chosen. split; [exact Hs|].
  cbn [fst snd state_file]. unfold saved_state. rewrite Hm, Hh.
  cbn [used last_sent sent_hours].
  rewrite sorted_list_singleton, (left_id_L ∅ (∪)), insert_empty. reflexivity.
Qed.

Lemma first_run_writes_fresh_record_witness :
  exists chosen,
    random_sample (fun i => i) (seq 0 (length (load_vocab sample_vocab))) 3 = Ok chosen
    /\ state_file (run (row_env "" 7 false) None).2
       = Some {| used := Some (sorted_list (list_to_set (Z.of_nat <$> chosen)));
                 last_sent := Some (Some "2024-01-01");
                 sent_hours := Some {[ "2024-01-01" := [7%Z] ]} |}.
Proof.
  assert (Hp : permitted (row_env "" 7 false) None "2024-01-01" 7).
  { exists true. split; [reflexivity|]. right. split; [reflexivity|].
    apply (bool_decide_unpack _). vm_compute. exact I. }
  apply (first_run_writes_fresh_record (row_env "" 7 false) "2024-01-01" 7%Z Hp).
  rewrite (run_permitted _ _ _ _ Hp).
  destruct (send_run_delivers (row_env "" 7 false) None "2024-01-01" 7)
    as (picked & text & ->); [cbn; lia|reflexivity].
Defined.

(** X14. An unknown time zone: with target hours configured and sending
    not forced the run ends with status 1 before it has printed, posted or
    written anything; with sending forced the zone is not looked up and the
    run passes the guards. *)
Theorem unknown_zone_crashes_scheduled_runs_only :
  forall e file,
    zone_now (clock e) = ZoneNotFound ->
    (FORCE_SEND (config e) = false -> blank (TARGET_HOURS (config e)) = false ->
     run e file = (Raise ZoneInfoNotFoundError, {| state_file := file; log := [] |})
     /\ exit_status (run e file).1 = 1%Z)
    /\ (FORCE_SEND (config e) = true ->
        run e file
        = send_run e file (c_date (local_now (clock e))) (utcnow_hour (clock e))).
Proof.
  intros e file Hz. split.
  - intros Hf Hb.
    assert (Hs : schedule_allows_sending (config e) (clock e)
                 = Raise ZoneInfoNotFoundError).
    { unfold schedule_allows_sending. fold (blank (TARGET_HOURS (config e))).
      rewrite Hf, Hb, Hz. reflexivity. }
    rewrite (run_schedule_raises e file _ Hs). auto.
  - intros Hf. apply run_permitted. exists true. split; [|left; exact Hf].
    unfold schedule_allows_sending. rewrite Hf. reflexivity.
Qed.

Lemma unknown_zone_crashes_scheduled_runs_only_witness :
  run misspelt_zone_env None
  = (Raise ZoneInfoNotFoundError, {| state_file := None; log := [] |}).
Proof.
  exact (proj1 (proj1 (unknown_zone_crashes_scheduled_runs_only
                         misspelt_zone_env None eq_refl) eq_refl eq_refl)).
Defined.

(** ** The script with its environment *)

Lemma unconfigured_backend_no_posts (e : Env) (file : option State) :
  (telegram_configured (backends e) = false ->
   telegram_posts (log (run e file).2) = [])
  /\ (twilio_configured (backends e) = false ->
      twilio_posts (log (run e file).2) = []).
Proof.
  destruct (run_shape e file) as [->|[[line ->]|(d & h & _ & ->)]]; [auto|auto|].
  destruct (send_run_shape e file d h)
    as [[_ ->]|[[_ ->]|(_ & words & picked & text & _ & _ & ->)]]; [auto|auto|].
  destruct (delivery_posts (backends e) file
              (saved_state picked (sent_hours_of file) d h (hours_recorded file d))
              text) as (-> & -> & _).
  split; intros ->; reflexivity.
Qed.

Lemma script_run (environ : gmap string string) (clk : Clock) (rows : list VocabRow)
    (tg tw : http_reply) (rnd : nat -> nat) (file : option State) (cfg : Config) :
  config_of_environ environ = Ok cfg ->
  script environ clk rows tg tw rnd {| state_file := file; log := [] |}
  = run {| config := cfg; clock := clk; csv_rows := rows;
           backends := backends_of_environ environ tg tw; rnd := rnd |} file.
Proof. intros H. unfold script. rewrite H. reflexivity. Qed.

(** X15. Credentials: when the bot token or the chat id is unset or
    empty, no run of the script posts to Telegram, whatever else the
    environment holds; when one of the four Twilio variables is unset or
    empty, no run posts to Twilio. *)
Theorem missing_credentials_post_nothing :
  forall environ clk rows tg tw rnd file,
    let out := script environ clk rows tg tw rnd {| state_file := file; log := [] |} in
    (env_truthy (environ !! "TELEGRAM_BOT_TOKEN") = false
     \/ env_truthy (environ !! "TELEGRAM_CHAT_ID") = false ->
     telegram_posts (log out.2) = [])
    /\ (env_truthy (environ !! "TWILIO_ACCOUNT_SID") = false
        \/ env_truthy (environ !! "TWILIO_AUTH_TOKEN") = false
        \/ env_truthy (environ !! "TWILIO_WHATSAPP_FROM") = false
        \/ env_truthy (environ !! "TWILIO_WHATSAPP_TO") = false ->
        twilio_posts (log out.2) = []).
Proof.
  intros environ clk rows tg tw rnd file out. subst out.
  destruct (config_of_environ environ) as [cfg|x] eqn:Hc.
  2:{ unfold script. rewrite Hc. cbn. auto. }
  rewrite (script_run _ _ _ _ _ _ _ _ Hc).
  match goal with |- context [run ?e file] =>
    destruct (unconfigured_backend_no_posts e file) as [Htg Htw] end.
  cbn [backends backends_of_environ telegram_configured twilio_configured] in Htg, Htw.
  split.
  - intros [H|H]; apply Htg; rewrite H; [reflexivity|apply andb_false_r].
  - intros [H|[H|[H|H]]]; apply Htw; rewrite H;
      rewrite ?andb_false_r; reflexivity.
Qed.

Lemma missing_credentials_post_nothing_witness :
  telegram_posts
    (log (script {[ "TELEGRAM_BOT_TOKEN" := "123:abc"; "TELEGRAM_CHAT_ID" := "" ]}
            berlin_clock sample_vocab (HttpReply 200 "{}") HttpFault (fun i => i)
            {| state_file := None; log := [] |}).2) = [].
Proof.
  apply (proj1 (missing_credentials_post_nothing
                  {[ "TELEGRAM_BOT_TOKEN" := "123:abc"; "TELEGRAM_CHAT_ID" := "" ]}
                  berlin_clock sample_vocab (HttpReply 200 "{}") HttpFault
                  (fun i => i) None)).
  right. vm_compute. reflexivity.
Defined.



(** ** Hand-written target hours *)

Section Pieces.
Import PyStr.

Lemma all_space_comma_free (s : string) : all_space s = true -> comma_free s = true.
Proof.
  induction s as [|c s IH]; cbn; [reflexivity|].
  intros [Hc Hs]%andb_prop. rewrite (IH Hs), andb_true_r.
  destruct (Ascii.eqb_spec c ","); [subst; discriminate|reflexivity].
Qed.

Lemma all_plain_comma_free (s : string) : all_plain s = true -> comma_free s = true.
Proof.
  induction s as [|c s IH]; cbn; [reflexivity|].
  intros [Hc Hs]%andb_prop. rewrite (IH Hs), andb_true_r.
  apply andb_prop in Hc as [_ Hc]. exact Hc.
Qed.

Lemma comma_free_app (a b : string) :
  comma_free (a ++ b) = comma_free a && comma_free b.
Proof.
  induction a as [|c a IH]; simpl; [reflexivity|].
  rewrite IH, andb_assoc. reflexivity.
Qed.

Lemma render_piece_comma_free (p : piece) :
  piece_ok p -> comma_free (render_piece p) = true.
Proof.
  destruct p as [sp|l z r]; cbn [piece_ok render_piece].
  - apply all_space_comma_free.
  - intros [Hl Hr]. rewrite !comma_free_app.
    rewrite (all_space_comma_free _ Hl), (all_space_comma_free _ Hr).
    rewrite (all_plain_comma_free _ (all_plain_str z)). reflexivity.
Qed.

Lemma split_comma_free (s : string) : comma_free s = true -> split "," s = [s].
Proof.
  induction s as [|c s IH]; simpl; [reflexivity|].
  intros [Hc Hs]%andb_prop. apply negb_true_iff in Hc.
  rewrite Hc, (IH Hs). reflexivity.
Qed.

Lemma split_comma_free_app (x rest : string) :
  comma_free x = true ->
  split "," (x ++ String "," rest) = x :: split "," rest.
Proof.
  induction x as [|c x IH]; simpl; [reflexivity|].
  intros [Hc Hx]%andb_prop. apply negb_true_iff in Hc.
  rewrite Hc, (IH Hx). reflexivity.
Qed.

Lemma split_join_comma_free (l : list string) :
  l <> [] -> Forall (fun s => comma_free s = true) l ->
  split "," (join "," l) = l.
Proof.
  induction l as [|x l IH]; [congruence|]. intros _ Hl.
  apply Forall_cons in Hl as [Hx Hl]. unfold join in *.
  destruct l as [|y l]; simpl.
  - apply split_comma_free, Hx.
  - change (split "," (x ++ String "," (String.concat "," (y :: l))) = x :: y :: l).
    rewrite (split_comma_free_app _ _ Hx). f_equal. apply IH; [congruence|exact Hl].
Qed.

Lemma lstrip_spaces (l s : string) :
  all_space l = true -> lstrip_by isspace (l ++ s) = lstrip_by isspace s.
Proof.
  induction l as [|c l IH]; simpl; [reflexivity|].
  intros [Hc Hl]%andb_prop. rewrite Hc. apply IH, Hl.
Qed.

Lemma rstrip_all_space (r : string) : all_space r = true -> rstrip_by isspace r = "".
Proof.
  induction r as [|c r IH]; simpl; [reflexivity|].
  intros [Hc Hr]%andb_prop. rewrite (IH Hr), Hc. reflexivity.
Qed.

Lemma rstrip_spaces (s r : string) :
  all_space r = true -> rstrip_by isspace (s ++ r) = rstrip_by isspace s.
Proof.
  intros Hr. induction s as [|c s IH].
  - change ("" ++ r) with r. rewrite (rstrip_all_space r Hr). reflexivity.
  - change (String c s ++ r) with (String c (s ++ r)). cbn [rstrip_by].
    rewrite IH. reflexivity.
Qed.

Lemma lstrip_all_space (sp : string) : all_space sp = true -> lstrip_by isspace sp = "".
Proof.
  induction sp as [|c sp IH]; simpl; [reflexivity|].
  intros [Hc Hs]%andb_prop. rewrite Hc. apply IH, Hs.
Qed.

Lemma strip_blanks (sp : string) : all_space sp = true -> strip sp = "".
Proof. intros H. unfold strip. rewrite (lstrip_all_space sp H). reflexivity. Qed.

Lemma strip_padded (l r : string) (z : Z) :
  all_space l = true -> all_space r = true -> strip (l ++ str z ++ r) = str z.
Proof.
  intros Hl Hr. unfold strip. rewrite (lstrip_spaces l _ Hl).
  pose proof (all_plain_str z) as Hp.
  assert (Hls : lstrip_by isspace (str z ++ r) = str z ++ r).
  { pose proof (str_nonempty z) as Hz. destruct (str z) as [|c s]; [congruence|].
    change (String c s ++ r) with (String c (s ++ r)). cbn [lstrip_by].
    simpl in Hp. apply andb_prop in Hp as [Hc _].
    rewrite (isspace_spares_plain c Hc). reflexivity. }
  rewrite Hls, (rstrip_spaces _ r Hr).
  apply rstrip_plain; [apply isspace_spares_plain|exact Hp].
Qed.

(** What the comprehension makes of rendered pieces. *)
Lemma parse_pieces (ps : list piece) :
  Forall piece_ok ps ->
  mapM (fun h => int (strip h))
    (List.filter (fun h => truthy (strip h)) (render_piece <$> ps))
  = Some (omap piece_hour ps).
Proof.
  induction 1 as [|p ps Hp _ IH]; [reflexivity|].
  cbn [fmap list_fmap List.filter omap list_omap].
  destruct p as [sp|l z r]; cbn [piece_ok render_piece piece_hour] in *.
  - rewrite (strip_blanks sp Hp). cbn [truthy]. exact IH.
  - destruct Hp as [Hl Hr]. rewrite (strip_padded l r z Hl Hr).
    pose proof (str_nonempty z) as Hz.
    destruct (str z) eqn:E; [congruence|]. cbn [truthy]. rewrite <- E.
    cbn [mapM]. rewrite (strip_padded l r z Hl Hr), int_str.
    cbn. change (list_fmap piece string render_piece ps) with (render_piece <$> ps).
    rewrite IH. reflexivity.
Qed.

Lemma parse_joined_pieces (ps : list piece) :
  Forall piece_ok ps ->
  parse_target_hours (join "," (render_piece <$> ps)) = omap piece_hour ps.
Proof.
  intros Hok. unfold parse_target_hours.
  destruct ps as [|p ps]; [reflexivity|].
  rewrite split_join_comma_free.
  - rewrite (parse_pieces _ Hok). reflexivity.
  - discriminate.
  - apply Forall_fmap. eapply Forall_impl; [exact Hok|].
    intros q Hq. apply render_piece_comma_free, Hq.
Qed.

Lemma joined_pieces_split (ps : list piece) :
  ps <> [] -> Forall piece_ok ps ->
  split "," (join "," (render_piece <$> ps)) = render_piece <$> ps.
Proof.
  intros Hne Hok. apply split_join_comma_free.
  - destruct ps; [congruence|discriminate].
  - apply Forall_fmap. eapply Forall_impl; [exact Hok|].
    intros q Hq. apply render_piece_comma_free, Hq.
Qed.

Lemma comma_not_all_space (x rest : string) :
  all_space (x ++ String "," rest) = false.
Proof.
  induction x as [|c x IH]; [reflexivity|].
  change (String c x ++ String "," rest) with (String c (x ++ String "," rest)).
  cbn [all_space]. rewrite IH. apply andb_false_r.
Qed.

Lemma join_two_not_all_space (x y : string) (l : list string) :
  all_space (join "," (x :: y :: l)) = false.
Proof.
  change (join "," (x :: y :: l)) with (x ++ String "," (join "," (y :: l))).
  apply comma_not_all_space.
Qed.

End Pieces.

(** X17. Target hours written by hand: pieces between commas that are
    blank are ignored and blanks around an hour are removed, so the parsed
    targets are the hours of the pieces, in order; when at least one piece
    is an hour and sending is not forced, the gate is open exactly when the
    hour of the zone clock is one of them. *)
Theorem target_hours_tolerate_blanks :
  forall ps,
    Forall piece_ok ps ->
    parse_target_hours (PyStr.join "," (render_piece <$> ps)) = omap piece_hour ps
    /\ (forall cfg clk t,
          TARGET_HOURS cfg = PyStr.join "," (render_piece <$> ps) ->
          FORCE_SEND cfg = false ->
          zone_now clk = ZoneNow t ->
          omap piece_hour ps <> [] ->
          schedule_allows_sending cfg clk
          = Ok (bool_decide (c_hour t ∈ omap piece_hour ps), c_date t, c_hour t)).
Proof.
  intros ps Hok. split; [apply parse_joined_pieces, Hok|].
  intros cfg clk t Hcfg Hforce Hzone Hhours.
  assert (Hb : blank (TARGET_HOURS cfg) = false).
  { assert (exists l z r, Hour l z r ∈ ps) as (l & z & r & Hin).
    { clear -Hhours. induction ps as [|[sp|l z r] ps IH];
        [exfalso; apply Hhours; reflexivity|..].
      - destruct IH as (l & z & r & Hin); [exact Hhours|].
        exists l, z, r. apply list_elem_of_further, Hin.
      - exists l, z, r. apply list_elem_of_here. }
    rewrite Forall_forall in Hok. pose proof (Hok _ Hin) as [Hl Hr].
    apply (token_not_blank _ (render_piece (Hour l z r))).
    - rewrite Hcfg, joined_pieces_split.
      + apply list_elem_of_fmap. eauto.
      + intros ->. apply elem_of_nil in Hin. exact Hin.
      + apply Forall_forall, Hok.
    - cbn [render_piece]. rewrite (strip_padded l r z Hl Hr).
      pose proof (str_nonempty z). destruct (PyStr.str z); [congruence|reflexivity]. }
  unfold schedule_allows_sending. fold (blank (TARGET_HOURS cfg)).
  rewrite Hforce, Hb, Hzone. cbn [orb negb].
  rewrite Hcfg, (parse_joined_pieces ps Hok). reflexivity.
Qed.

Lemma target_hours_tolerate_blanks_witness :
  parse_target_hours " 9, 15 ,,21 ," = [9; 15; 21]%Z.
Proof.
  refine (proj1 (target_hours_tolerate_blanks
                   [Hour " " 9 ""; Hour " " 15 " "; Blanks ""; Hour "" 21 " ";
                    Blanks ""] _)).
  repeat constructor.
Defined.

(** X18. A configuration of commas and blanks only, with at least one
    comma, is not the empty configuration: it is not blank, its target list
    is empty, and without force the gate is closed at every hour. *)
Theorem commas_only_blocks_every_hour :
  forall ps cfg clk,
    Forall piece_ok ps ->
    omap piece_hour ps = [] ->
    (2 <= length ps)%nat ->
    TARGET_HOURS cfg = PyStr.join "," (render_piece <$> ps) ->
    FORCE_SEND cfg = false ->
    zone_now clk <> ZoneNotFound ->
    blank (TARGET_HOURS cfg) = false
    /\ parse_target_hours (TARGET_HOURS cfg) = []
    /\ exists d h, schedule_allows_sending cfg clk = Ok (false, d, h).
Proof.
  intros ps cfg clk Hok Hnone Hlen Hcfg Hforce Hzone.
  assert (Hb : blank (TARGET_HOURS cfg) = false).
  { unfold blank. destruct (PyStr.strip (TARGET_HOURS cfg)) eqn:E; [|reflexivity].
    apply strip_empty in E. rewrite Hcfg in E.
    destruct ps as [|p [|q ps]]; cbn in Hlen; try lia.
    cbn [fmap list_fmap] in E. rewrite join_two_not_all_space in E. discriminate. }
  assert (Hp : parse_target_hours (TARGET_HOURS cfg) = []).
  { rewrite Hcfg, (parse_joined_pieces ps Hok). exact Hnone. }
  split; [exact Hb|]. split; [exact Hp|].
  unfold schedule_allows_sending. fold (blank (TARGET_HOURS cfg)).
  rewrite Hforce, Hb, Hp. cbn.
  destruct (zone_now clk); [eauto|congruence|eauto].
Qed.

Lemma commas_only_blocks_every_hour_witness :
  blank " , " = false
  /\ parse_target_hours " , " = []
  /\ exists d h,
       schedule_allows_sending
         {| N_WORDS := 3; TZ := "Europe/Berlin"; TARGET_HOURS := " , ";
            FORCE_SEND := false |} berlin_clock = Ok (false, d, h).
Proof.
  apply (commas_only_blocks_every_hour [Blanks " "; Blanks " "]
           {| N_WORDS := 3; TZ := "Europe/Berlin"; TARGET_HOURS := " , ";
              FORCE_SEND := false |} berlin_clock).
  - repeat constructor.
  - reflexivity.
  - cbn. lia.
  - reflexivity.
  - reflexivity.
  - discriminate.
Defined.
